(** * EncryptedSurveySystem (contracts/PulseCheck_FHE.sol)

    A shallow embedding of the Solidity contract and the properties of
    its public operations.

    - [uint256] and [uint32] values are binary naturals [N]; the one
      arithmetic operation of the contract, [responseCounts[id]++], is
      checked (Solidity 0.8) and aborts with [Panic 0x11] at [2^256 - 1].
    - A Solidity [mapping] is total: a missing key reads as the
      zero value of its type.  Mappings are [gmap]s read through
      accessors that supply that zero value.
    - A call runs in the monad [M]: it threads the contract state and
      either finishes or aborts.  An abort carries the state reached
      when it was raised; the EVM then discards that state ([commit]).
    - The FHE library is outside the repository.  Its two operations
      with a result the contract depends on are the fields of
      [FHE.Lib]. *)

From Stdlib Require Import NArith List Bool Lia.
From Stdlib.Strings Require Import String Byte.
From stdpp Require Import base option list gmap fin_maps strings.

Local Open Scope string_scope.
Local Open Scope N_scope.

(** ** Value types *)

Definition uint256 := N.
Definition uint32 := N.
Definition bytes32 := N.
Definition bytes := list byte.

Definition MAX_UINT256 : N := 2 ^ 256 - 1.

(** [++] on a [uint256] in checked mode. *)
Definition checked_incr (x : uint256) : option uint256 :=
  if x <? MAX_UINT256 then Some (x + 1) else None.

(** Big-endian value of a byte string. *)
Definition be_value (bs : bytes) : N :=
  fold_left (fun acc b => acc * 256 + Byte.to_N b) bs 0.

(** [abi.decode(data, (uint32))]: the first 32-byte word of [data],
    rejected when [data] is shorter than one word or when the word does
    not fit in 32 bits. *)
Definition abi_decode_uint32 (data : bytes) : option uint32 :=
  if (length data <? 32)%nat then None
  else
    let w := be_value (take 32 data) in
    if w <? 2 ^ 32 then Some w else None.

(** ** The FHE library, as far as the contract uses it *)

Module FHE.

(** An [euint32] is a [bytes32] handle; an [externalEuint32] likewise. *)
Definition euint32 := bytes32.
Definition externalEuint32 := bytes32.

(** [fromExternal input proof] is the handle returned by
    [FHE.fromExternal(input, proof)], or [None] when the input verifier
    reverts.  [checkSignatures handles cleartexts proof] is [false] when
    [FHE.checkSignatures(handles, cleartexts, proof)] reverts. *)
Class Lib := {
  fromExternal : externalEuint32 -> bytes -> option euint32;
  checkSignatures : list bytes32 -> bytes -> bytes -> bool
}.

Definition isInitialized (v : euint32) : bool := negb (v =? 0).
Definition toBytes32 (v : euint32) : bytes32 := v.

End FHE.

(** ** Storage *)

Record EncryptedResponse := {
  encryptedScore : FHE.euint32;
  departmentId : uint256;
  questionId : uint256;
  timestamp : uint256;
  isVerified : bool;
  decryptedScore : uint32
}.

Record SurveyMetadata := {
  surveyName : string;
  startTime : uint256;
  endTime : uint256;
  isActive : bool
}.

Inductive Event :=
| SurveyCreated (surveyId : uint256) (name : string)
| ResponseSubmitted (surveyId departmentId questionId : uint256)
| ResponseVerified (surveyId departmentId questionId : uint256) (score : uint32).

(** Calls into the ACL contract made through the FHE library. *)
Inductive AclCall :=
| AllowThis (h : FHE.euint32)
| MakePubliclyDecryptable (h : FHE.euint32).

Record State := {
  surveys : gmap N SurveyMetadata;
  responses : gmap N (gmap N (list EncryptedResponse));
  responseCounts : gmap N N;
  events : list Event;
  acl : list AclCall
}.

Definition init : State :=
  {| surveys := ∅; responses := ∅; responseCounts := ∅; events := []; acl := [] |}.

Definition zero_survey : SurveyMetadata :=
  {| surveyName := ""; startTime := 0; endTime := 0; isActive := false |}.

(** [surveys[id]] *)
Definition survey_at (s : State) (id : uint256) : SurveyMetadata :=
  default zero_survey (surveys s !! id).

(** [responses[id]] *)
Definition departments_at (s : State) (id : uint256) : gmap N (list EncryptedResponse) :=
  default ∅ (responses s !! id).

(** [responses[id][dep]] *)
Definition responses_at (s : State) (id dep : uint256) : list EncryptedResponse :=
  default [] (departments_at s id !! dep).

(** [responseCounts[id]] *)
Definition count_at (s : State) (id : uint256) : uint256 :=
  default 0 (responseCounts s !! id).

Definition set_survey (id : uint256) (m : SurveyMetadata) (s : State) : State :=
  {| surveys := <[id := m]> (surveys s); responses := responses s;
     responseCounts := responseCounts s; events := events s; acl := acl s |}.

Definition set_responses (id dep : uint256) (l : list EncryptedResponse) (s : State) : State :=
  {| surveys := surveys s;
     responses := <[id := <[dep := l]> (departments_at s id)]> (responses s);
     responseCounts := responseCounts s; events := events s; acl := acl s |}.

Definition set_count (id : uint256) (c : uint256) (s : State) : State :=
  {| surveys := surveys s; responses := responses s;
     responseCounts := <[id := c]> (responseCounts s); events := events s; acl := acl s |}.

Definition add_event (e : Event) (s : State) : State :=
  {| surveys := surveys s; responses := responses s;
     responseCounts := responseCounts s; events := events s ++ [e]; acl := acl s |}.

Definition add_acl (c : AclCall) (s : State) : State :=
  {| surveys := surveys s; responses := responses s;
     responseCounts := responseCounts s; events := events s; acl := acl s ++ [c] |}.

(** [responses[id][dep].push(r)] *)
Definition push_response (id dep : uint256) (r : EncryptedResponse) (s : State) : State :=
  set_responses id dep (responses_at s id dep ++ [r]) s.

(** A write through the storage pointer [responses[id][dep][i]]. *)
Definition update_response (id dep i : uint256)
    (f : EncryptedResponse -> EncryptedResponse) (s : State) : State :=
  set_responses id dep (alter f (N.to_nat i) (responses_at s id dep)) s.

Definition with_decryptedScore (v : uint32) (r : EncryptedResponse) : EncryptedResponse :=
  {| encryptedScore := encryptedScore r; departmentId := departmentId r;
     questionId := questionId r; timestamp := timestamp r;
     isVerified := isVerified r; decryptedScore := v |}.

Definition with_isVerified (b : bool) (r : EncryptedResponse) : EncryptedResponse :=
  {| encryptedScore := encryptedScore r; departmentId := departmentId r;
     questionId := questionId r; timestamp := timestamp r;
     isVerified := b; decryptedScore := decryptedScore r |}.

Definition with_isActive (b : bool) (m : SurveyMetadata) : SurveyMetadata :=
  {| surveyName := surveyName m; startTime := startTime m;
     endTime := endTime m; isActive := b |}.

(** ** Aborts and the call monad *)

Inductive Error :=
| Revert (reason : string)     (* a failed [require(cond, reason)] *)
| Panic (code : N)             (* a compiler-inserted check *)
| LibRevert (callee : string)  (* a revert raised inside the FHE library *)
| AbiDecodeRevert.             (* [abi.decode] on malformed data *)

Inductive Outcome (A : Type) :=
| Done (a : A) (s : State)
| Abort (e : Error) (s : State).
Arguments Done {A} a s.
Arguments Abort {A} e s.

Definition M (A : Type) : Type := State -> Outcome A.

Definition ret {A} (a : A) : M A := fun s => Done a s.

Definition bind {A B} (m : M A) (k : A -> M B) : M B :=
  fun s => match m s with
           | Done a s' => k a s'
           | Abort e s' => Abort e s'
           end.

Notation "x <- m ;; k" := (bind m (fun x => k))
  (at level 100, m at next level, right associativity).
Notation "m ;;; k" := (bind m (fun _ => k))
  (at level 100, right associativity).

Definition fail {A} (e : Error) : M A := fun s => Abort e s.
Definition get : M State := fun s => Done s s.
Definition modify (f : State -> State) : M unit := fun s => Done tt (f s).
Definition require (c : bool) (reason : string) : M unit :=
  if c then ret tt else fail (Revert reason).
Definition emit (e : Event) : M unit := modify (add_event e).
Definition lift_option {A} (o : option A) (e : Error) : M A :=
  match o with Some a => ret a | None => fail e end.

(** What the EVM keeps of a call started in [s0]. *)
Definition commit {A} (o : Outcome A) (s0 : State) : State :=
  match o with Done _ s' => s' | Abort _ _ => s0 end.

(** A [view] function reads the state and returns a value or aborts. *)
Definition View (A : Type) : Type := State -> Error + A.

(** The names the specification gives to the aborts. *)
Definition DuplicateSurvey := Revert "Survey already exists".
Definition InvalidTimeRange := Revert "Invalid time range".
Definition SurveyInactive := Revert "Survey is not active".
Definition OutOfWindow := Revert "Survey not in progress".
Definition InvalidEncryptedInput := Revert "Invalid encrypted input".
Definition IndexOutOfRange := Revert "Invalid response index".
Definition AlreadyVerified := Revert "Response already verified".
Definition NotYetVerified := Revert "Response not verified".
Definition SurveyAlreadyClosed := Revert "Survey already closed".
Definition SurveyStillInProgress := Revert "Survey still in progress".
Definition InvalidDecryptionProof := LibRevert "FHE.checkSignatures".
Definition MalformedClearValue := AbiDecodeRevert.

(** ** The contract *)

Section Contract.

Context {fhe : FHE.Lib}.

(** The library calls of [submitEncryptedResponse] and [verifyResponse]. *)
Definition FHE_fromExternal (input : FHE.externalEuint32) (proof : bytes) : M FHE.euint32 :=
  lift_option (FHE.fromExternal input proof) (LibRevert "FHE.fromExternal").

(** [FHE.allowThis] and [FHE.makePubliclyDecryptable] write to the ACL
    contract, not to this one; the calls are recorded in [acl]. *)
Definition FHE_allowThis (h : FHE.euint32) : M unit := modify (add_acl (AllowThis h)).

Definition FHE_makePubliclyDecryptable (h : FHE.euint32) : M unit :=
  modify (add_acl (MakePubliclyDecryptable h)).

Definition FHE_checkSignatures (cts : list bytes32) (cleartexts proof : bytes) : M unit :=
  if FHE.checkSignatures cts cleartexts proof then ret tt
  else fail (LibRevert "FHE.checkSignatures").

(** [responses[id][dep][i]], with the bounds check of an array access. *)
Definition response_at (id dep i : uint256) : M EncryptedResponse :=
  s <- get ;;
  lift_option (responses_at s id dep !! N.to_nat i) (Panic 50).

Definition createSurvey (surveyId : uint256) (name : string)
    (start_ end_ : uint256) : M unit :=
  s <- get ;;
  require (String.length (surveyName (survey_at s surveyId)) =? 0)%nat
          "Survey already exists" ;;;
  require (start_ <? end_) "Invalid time range" ;;;
  modify (set_survey surveyId
            {| surveyName := name; startTime := start_;
               endTime := end_; isActive := true |}) ;;;
  emit (SurveyCreated surveyId name).

Definition submitEncryptedResponse (now : uint256)
    (surveyId departmentId_ questionId_ : uint256)
    (encryptedScore_ : FHE.externalEuint32) (inputProof : bytes) : M unit :=
  s <- get ;;
  require (isActive (survey_at s surveyId)) "Survey is not active" ;;;
  require ((startTime (survey_at s surveyId) <=? now)
           && (now <=? endTime (survey_at s surveyId)))
          "Survey not in progress" ;;;
  probe <- FHE_fromExternal encryptedScore_ inputProof ;;
  require (FHE.isInitialized probe) "Invalid encrypted input" ;;;
  encryptedValue <- FHE_fromExternal encryptedScore_ inputProof ;;
  FHE_allowThis encryptedValue ;;;
  FHE_makePubliclyDecryptable encryptedValue ;;;
  modify (push_response surveyId departmentId_
            {| encryptedScore := encryptedValue;
               departmentId := departmentId_;
               questionId := questionId_;
               timestamp := now;
               isVerified := false;
               decryptedScore := 0 |}) ;;;
  s1 <- get ;;
  c <- lift_option (checked_incr (count_at s1 surveyId)) (Panic 17) ;;
  modify (set_count surveyId c) ;;;
  emit (ResponseSubmitted surveyId departmentId_ questionId_).

Definition verifyResponse
    (surveyId departmentId_ questionId_ responseIndex : uint256)
    (abiEncodedClearValue decryptionProof : bytes) : M unit :=
  s <- get ;;
  require (responseIndex <? N.of_nat (length (responses_at s surveyId departmentId_)))
          "Invalid response index" ;;;
  response <- response_at surveyId departmentId_ responseIndex ;;
  require (negb (isVerified response)) "Response already verified" ;;;
  let cts := [FHE.toBytes32 (encryptedScore response)] in
  FHE_checkSignatures cts abiEncodedClearValue decryptionProof ;;;
  decodedValue <- lift_option (abi_decode_uint32 abiEncodedClearValue) AbiDecodeRevert ;;
  modify (update_response surveyId departmentId_ responseIndex
            (with_decryptedScore decodedValue)) ;;;
  modify (update_response surveyId departmentId_ responseIndex
            (with_isVerified true)) ;;;
  emit (ResponseVerified surveyId departmentId_ questionId_ decodedValue).

Definition closeSurvey (now : uint256) (surveyId : uint256) : M unit :=
  s <- get ;;
  require (isActive (survey_at s surveyId)) "Survey already closed" ;;;
  require (endTime (survey_at s surveyId) <? now) "Survey still in progress" ;;;
  modify (fun s' => set_survey surveyId (with_isActive false (survey_at s' surveyId)) s').

(** *** View functions *)

Definition getSurveyMetadata (surveyId : uint256)
  : View (string * uint256 * uint256 * bool) :=
  fun s =>
    let survey := survey_at s surveyId in
    inr (surveyName survey, startTime survey, endTime survey, isActive survey).

Definition getResponseCount (surveyId : uint256) : View uint256 :=
  fun s => inr (count_at s surveyId).

Definition getEncryptedResponse
    (surveyId departmentId_ questionId_ responseIndex : uint256) : View FHE.euint32 :=
  fun s =>
    if responseIndex <? N.of_nat (length (responses_at s surveyId departmentId_)) then
      match responses_at s surveyId departmentId_ !! N.to_nat responseIndex with
      | Some r => inr (encryptedScore r)
      | None => inl (Panic 50)
      end
    else inl (Revert "Invalid response index").

Definition getDecryptedResponse
    (surveyId departmentId_ questionId_ responseIndex : uint256) : View uint32 :=
  fun s =>
    if responseIndex <? N.of_nat (length (responses_at s surveyId departmentId_)) then
      match responses_at s surveyId departmentId_ !! N.to_nat responseIndex with
      | Some r =>
          if isVerified r then inr (decryptedScore r)
          else inl (Revert "Response not verified")
      | None => inl (Panic 50)
      end
    else inl (Revert "Invalid response index").

Definition getResponseDetails
    (surveyId departmentId_ questionId_ responseIndex : uint256)
  : View (uint256 * uint256 * uint256 * bool * uint32) :=
  fun s =>
    if responseIndex <? N.of_nat (length (responses_at s surveyId departmentId_)) then
      match responses_at s surveyId departmentId_ !! N.to_nat responseIndex with
      | Some response =>
          inr (departmentId response, questionId response, timestamp response,
               isVerified response, decryptedScore response)
      | None => inl (Panic 50)
      end
    else inl (Revert "Invalid response index").

(** ** Calls and executions *)

(** The entry points that write.  The view functions, and the getters of
    the public mappings, leave the state as it is. *)
Inductive Call :=
| CreateSurvey (surveyId : uint256) (name : string) (start_ end_ : uint256)
| SubmitEncryptedResponse (surveyId departmentId_ questionId_ : uint256)
    (encryptedScore_ : FHE.externalEuint32) (inputProof : bytes)
| VerifyResponse (surveyId departmentId_ questionId_ responseIndex : uint256)
    (abiEncodedClearValue decryptionProof : bytes)
| CloseSurvey (surveyId : uint256).

(** A transaction: [block.timestamp] and the call. *)
Definition Tx : Type := uint256 * Call.

Definition exec (tx : Tx) : M unit :=
  let now := fst tx in
  match snd tx with
  | CreateSurvey id name st en => createSurvey id name st en
  | SubmitEncryptedResponse id dep q e p => submitEncryptedResponse now id dep q e p
  | VerifyResponse id dep q i cv p => verifyResponse id dep q i cv p
  | CloseSurvey id => closeSurvey now id
  end.

(** Whether [tx] runs to its end from [s]. *)
Definition succeeds (tx : Tx) (s : State) : bool :=
  match exec tx s with Done _ _ => true | Abort _ _ => false end.

(** The state after [tx]: an aborted transaction leaves [s]. *)
Definition step (s : State) (tx : Tx) : State := commit (exec tx s) s.

(** The state after the transactions of [t], in order. *)
Definition run (s : State) (t : list Tx) : State := fold_left step t s.

(** No call of [t], run from [s], that satisfies [p] succeeds. *)
Fixpoint none_succeeds (p : Call -> bool) (s : State) (t : list Tx) : bool :=
  match t with
  | [] => true
  | tx :: t' => negb (p (snd tx) && succeeds tx s) && none_succeeds p (step s tx) t'
  end.

(** The calls that create survey [id]. *)
Definition is_create_of (id : uint256) (c : Call) : bool :=
  match c with CreateSurvey id' _ _ _ => id' =? id | _ => false end.

(** The calls that verify response [i] of [(id, dep)]. *)
Definition is_verify_of (id dep i : uint256) (c : Call) : bool :=
  match c with
  | VerifyResponse id' dep' _ i' _ _ => (id' =? id) && (dep' =? dep) && (i' =? i)
  | _ => false
  end.

(** What a submission fixes of a response, for good. *)
Definition Submission : Type := FHE.euint32 * uint256 * uint256 * uint256.

Definition submission_of (r : EncryptedResponse) : Submission :=
  (encryptedScore r, departmentId r, questionId r, timestamp r).

(** The successful submissions to [(id, dep)] in [t], run from [s], in order. *)
Fixpoint submissions (id dep : uint256) (s : State) (t : list Tx) : list Submission :=
  match t with
  | [] => []
  | tx :: t' =>
      match snd tx with
      | SubmitEncryptedResponse id' dep' q e p =>
          if (id' =? id) && (dep' =? dep) && succeeds tx s then
            match FHE.fromExternal e p with
            | Some h => [(h, dep', q, fst tx)]
            | None => []
            end
          else []
      | _ => []
      end ++ submissions id dep (step s tx) t'
  end.

(** The sum, over the departments of survey [id], of the number of responses. *)
Definition total_responses (s : State) (id : uint256) : N :=
  map_fold (fun _ l acc => acc + N.of_nat (length l)) 0 (departments_at s id).

(** *** The states the entry points end in, and what the proofs speak of *)

(** The state [createSurvey] ends in. *)
Definition created (id : uint256) (name : string) (start_ end_ : uint256) (s : State) : State :=
  add_event (SurveyCreated id name)
    (set_survey id {| surveyName := name; startTime := start_;
                      endTime := end_; isActive := true |} s).

(** The response a submission pushes. *)
Definition fresh_response (h : FHE.euint32) (dep q now : uint256) : EncryptedResponse :=
  {| encryptedScore := h; departmentId := dep; questionId := q;
     timestamp := now; isVerified := false; decryptedScore := 0 |}.

(** The state of [submitEncryptedResponse] after its [push]. *)
Definition pushed (now id dep q : uint256) (h : FHE.euint32) (s : State) : State :=
  push_response id dep (fresh_response h dep q now)
    (add_acl (MakePubliclyDecryptable h) (add_acl (AllowThis h) s)).

(** The state [submitEncryptedResponse] ends in. *)
Definition submitted (now id dep q : uint256) (h : FHE.euint32) (s : State) : State :=
  add_event (ResponseSubmitted id dep q)
    (set_count id (count_at s id + 1) (pushed now id dep q h s)).

(** The two writes of [verifyResponse], on one response. *)
Definition verified_with (v : uint32) (r : EncryptedResponse) : EncryptedResponse :=
  with_isVerified true (with_decryptedScore v r).

(** The state [verifyResponse] ends in. *)
Definition verified (id dep q i : uint256) (v : uint32) (s : State) : State :=
  add_event (ResponseVerified id dep q v)
    (update_response id dep i (with_isVerified true)
       (update_response id dep i (with_decryptedScore v) s)).

(** The state [closeSurvey] ends in. *)
Definition closed (id : uint256) (s : State) : State :=
  set_survey id (with_isActive false (survey_at s id)) s.

(** [Step s tx ok s']: from [s], transaction [tx] ends in [s'], having
    succeeded or not ([ok]).  One rule per entry point that succeeds, with
    the guards it passed, and one for every abort. *)
Inductive Step (s : State) : Tx -> bool -> State -> Prop :=
| Step_abort tx :
    succeeds tx s = false ->
    Step s tx false s
| Step_create now id name st en :
    String.length (surveyName (survey_at s id)) = 0%nat ->
    st < en ->
    Step s (now, CreateSurvey id name st en) true (created id name st en s)
| Step_submit now id dep q e p h :
    isActive (survey_at s id) = true ->
    startTime (survey_at s id) <= now <= endTime (survey_at s id) ->
    FHE.fromExternal e p = Some h ->
    h <> 0 ->
    count_at s id < MAX_UINT256 ->
    Step s (now, SubmitEncryptedResponse id dep q e p) true (submitted now id dep q h s)
| Step_verify now id dep q i cv p r v :
    responses_at s id dep !! N.to_nat i = Some r ->
    isVerified r = false ->
    FHE.checkSignatures [FHE.toBytes32 (encryptedScore r)] cv p = true ->
    abi_decode_uint32 cv = Some v ->
    Step s (now, VerifyResponse id dep q i cv p) true (verified id dep q i v s)
| Step_close now id :
    isActive (survey_at s id) = true ->
    endTime (survey_at s id) < now ->
    Step s (now, CloseSurvey id) true (closed id s).

(** Slot [n] of [(id, dep)] is empty or holds an unverified response with
    a zero clear score. *)
Definition unverified_at (s : State) (id dep : uint256) (n : nat) : Prop :=
  forall r, responses_at s id dep !! n = Some r ->
            isVerified r = false /\ decryptedScore r = 0.

(** The calls that submit to survey [id]. *)
Definition is_submit_of (id : uint256) (c : Call) : bool :=
  match c with SubmitEncryptedResponse id' _ _ _ _ => id' =? id | _ => false end.

(** Survey [id] as the deployment left it: zero metadata, zero counter,
    no response. *)
Definition untouched (s : State) (id : uint256) : Prop :=
  survey_at s id = zero_survey /\ count_at s id = 0 /\
  forall dep, responses_at s id dep = [].

(** The aborts raised by a compiler-inserted check. *)
Definition is_panic (e : Error) : bool :=
  match e with Panic _ => true | _ => false end.

(** Survey [id] has in [s'] the name and the window it has in [s], and is
    inactive in [s'] if it is in [s]. *)
Definition same_survey (s s' : State) (id : uint256) : Prop :=
  surveyName (survey_at s' id) = surveyName (survey_at s id) /\
  startTime (survey_at s' id) = startTime (survey_at s id) /\
  endTime (survey_at s' id) = endTime (survey_at s id) /\
  (isActive (survey_at s id) = false -> isActive (survey_at s' id) = false).

(** The sum, over the departments listed in [deps], of the number of
    responses of survey [id]. *)
Definition sum_over (s : State) (id : uint256) (deps : list uint256) : N :=
  foldr (fun dep acc => N.of_nat (length (responses_at s id dep)) + acc) 0 deps.

(** [sum_over], on the departments of one survey. *)
Definition lengths_over (m : gmap N (list EncryptedResponse)) (deps : list N) : N :=
  foldr (fun dep acc => N.of_nat (length (default [] (m !! dep))) + acc) 0 deps.

End Contract.

(** ** Concrete inputs *)

(** A stand-in for the library: an input is accepted, as the handle it
    names, when its proof is not empty; a decryption proof is accepted when
    it is not empty. *)
Definition toy_fhe : FHE.Lib := {|
  FHE.fromExternal := fun input proof =>
    match proof with [] => None | _ => Some input end;
  FHE.checkSignatures := fun _ _ proof =>
    match proof with [] => false | _ => true end
|}.

(** The ABI encoding of a [uint256]: 32 bytes, big-endian. *)
Definition abi_encode_uint256 (v : N) : bytes :=
  map (fun k => default x00 (Byte.of_N ((v / 256 ^ N.of_nat (31 - k)) mod 256))) (seq 0 32).

(** The scenario of the specification, up to the first submission. *)
Definition scenario : list Tx :=
  [ (50, CreateSurvey 1 "S1" 100 200);
    (150, SubmitEncryptedResponse 1 1 7 42 [x01]) ].

(** The scenario, through the close and a verification of response 0. *)
Definition scenario_verified : list Tx :=
  (scenario ++
   [ (250, CloseSurvey 1);
     (260, VerifyResponse 1 1 7 0 (abi_encode_uint256 8) [x01]) ])%list.

(** The scenario, with two more submissions inside the window. *)
Definition scenario_two : list Tx :=
  (scenario ++
   [ (160, SubmitEncryptedResponse 1 1 9 43 [x01]);
     (170, SubmitEncryptedResponse 1 2 9 44 [x01]) ])%list.

(** ** What the contract's records add up to *)

Section Observations.

Context {fhe : FHE.Lib}.

(** The survey a call addresses. *)
Definition survey_of (c : Call) : uint256 :=
  match c with
  | CreateSurvey id _ _ _ => id
  | SubmitEncryptedResponse id _ _ _ _ => id
  | VerifyResponse id _ _ _ _ _ => id
  | CloseSurvey id => id
  end.

(** The department a call addresses, when it addresses one. *)
Definition department_of (c : Call) : option uint256 :=
  match c with
  | SubmitEncryptedResponse _ dep _ _ _ => Some dep
  | VerifyResponse _ dep _ _ _ _ => Some dep
  | _ => None
  end.

(** The event a call emits when it runs to its end. *)
Definition emits (c : Call) : list Event :=
  match c with
  | CreateSurvey id name _ _ => [SurveyCreated id name]
  | SubmitEncryptedResponse id dep q _ _ => [ResponseSubmitted id dep q]
  | VerifyResponse id dep q _ cv _ =>
      match abi_decode_uint32 cv with
      | Some v => [ResponseVerified id dep q v]
      | None => []
      end
  | CloseSurvey _ => []
  end.

(** The events of the successful calls of [t], run from [s], in order. *)
Fixpoint emitted (s : State) (t : list Tx) : list Event :=
  match t with
  | [] => []
  | tx :: t' =>
      ((if succeeds tx s then emits (snd tx) else []) ++ emitted (step s tx) t')%list
  end.

Definition is_submitted_event (id : uint256) (e : Event) : bool :=
  match e with ResponseSubmitted id' _ _ => id' =? id | _ => false end.

Definition is_verified_event (id dep : uint256) (e : Event) : bool :=
  match e with
  | ResponseVerified id' dep' _ _ => (id' =? id) && (dep' =? dep)
  | _ => false
  end.

(** The number of elements of [l] that satisfy [p]. *)
Definition count_of {A} (p : A -> bool) (l : list A) : N :=
  N.of_nat (length (filter (fun x => p x = true) l)).

(** What every stored response of department [dep] satisfies. *)
Definition well_formed (dep : uint256) (r : EncryptedResponse) : Prop :=
  departmentId r = dep /\
  encryptedScore r <> 0 /\
  decryptedScore r < 2 ^ 32 /\
  (isVerified r = false -> decryptedScore r = 0).

(** Every stored response is [well_formed], and the ACL calls for its
    handle are on record. *)
Definition ledger_ok (s : State) : Prop :=
  forall id dep r,
    r ∈ responses_at s id dep ->
    well_formed dep r /\
    AllowThis (encryptedScore r) ∈ acl s /\
    MakePubliclyDecryptable (encryptedScore r) ∈ acl s.

(** A survey record is as the deployment left it, or has a window with
    [startTime < endTime]. *)
Definition survey_ok (s : State) (id : uint256) : Prop :=
  untouched s id \/ startTime (survey_at s id) < endTime (survey_at s id).

(** Every response of survey [id] was submitted inside its window. *)
Definition in_window (s : State) (id : uint256) : Prop :=
  forall dep r,
    r ∈ responses_at s id dep ->
    startTime (survey_at s id) <= timestamp r <= endTime (survey_at s id).

(** The timestamps of a sequence, oldest first, never go back. *)
Fixpoint ascending (ts : list N) : Prop :=
  match ts with
  | [] => True
  | x :: ts' => (forall y, y ∈ ts' -> x <= y) /\ ascending ts'
  end.

(** No response of [s] is later than [b], and every sequence is
    [ascending]. *)
Definition clock_ok (s : State) (b : uint256) : Prop :=
  forall id dep,
    ascending (map timestamp (responses_at s id dep)) /\
    forall r, r ∈ responses_at s id dep -> timestamp r <= b.

(** The clock of [t] starts at [b] or later and never goes back. *)
Fixpoint clock_from (b : uint256) (t : list Tx) : Prop :=
  match t with
  | [] => True
  | tx :: t' => b <= fst tx /\ clock_from (fst tx) t'
  end.


(** The results of two calls agree: both end, or both abort with one error. *)
Definition same_outcome {A} (o1 o2 : Outcome A) : Prop :=
  match o1, o2 with
  | Done _ _, Done _ _ => True
  | Abort e1 _, Abort e2 _ => e1 = e2
  | _, _ => False
  end.

End Observations.

(** ** The dashboard (frontend/web/src/App.tsx)

    Of the React component, the part of [loadData] that turns the records
    fetched from the chain into the survey list and its counts, and the
    category index that [createSurvey] sends.  Numbers are the naturals
    that [Number(...)] yields on the unsigned integers of a contract.  The
    average sentiment, a floating-point quotient, and the count of recent
    surveys, which reads the clock, are left out. *)

Module Frontend.

Module BusinessData.
(** What [loadData] reads of the result of [contract.getBusinessData]. *)
Record t := {
  name : string;
  publicValue1 : N;
  publicValue2 : N;
  timestamp : N;
  creator : string;
  isVerified : bool;
  decryptedValue : N
}.
End BusinessData.

Module SurveyData.
Record t := {
  id : string;
  title : string;
  category : string;
  sentiment : N;
  timestamp : N;
  creator : string;
  publicValue1 : N;
  publicValue2 : N;
  isVerified : bool;
  decryptedValue : N
}.
End SurveyData.

Definition categories : list string :=
  ["general"; "management"; "workplace"; "benefits"; "culture"; "technical"].

(** [x || d] on numbers: [d] when [x] is 0. *)
Definition or_else (x d : N) : N := if x =? 0 then d else x.

(** [l.indexOf(c)]: the first index of [c], or -1. *)
Fixpoint indexOf_from (k : Z) (c : string) (l : list string) : Z :=
  match l with
  | [] => (-1)%Z
  | x :: l' => if String.eqb x c then k else indexOf_from (k + 1)%Z c l'
  end.

Definition indexOf (c : string) (l : list string) : Z := indexOf_from 0%Z c l.

(** [categories[Number(publicValue1) % categories.length] || "general"] *)
Definition category_of (publicValue1 : N) : string :=
  nth (N.to_nat (publicValue1 mod N.of_nat (length categories))) categories "general".

(** The element that [loadData] pushes for a business. *)
Definition survey_data (businessId : string) (d : BusinessData.t) : SurveyData.t :=
  {| SurveyData.id := businessId;
     SurveyData.title := BusinessData.name d;
     SurveyData.category := category_of (BusinessData.publicValue1 d);
     SurveyData.sentiment := or_else (BusinessData.publicValue2 d) 5;
     SurveyData.timestamp := BusinessData.timestamp d;
     SurveyData.creator := BusinessData.creator d;
     SurveyData.publicValue1 := or_else (BusinessData.publicValue1 d) 0;
     SurveyData.publicValue2 := or_else (BusinessData.publicValue2 d) 0;
     SurveyData.isVerified := BusinessData.isVerified d;
     SurveyData.decryptedValue := or_else (BusinessData.decryptedValue d) 0 |}.

(** One turn of the loop of [loadData] over a business identifier and the
    result of [getBusinessData] for it, [None] when the call throws: the
    [catch] logs and goes on. *)
Definition load_one (acc : list SurveyData.t * gmap string N)
    (fetched : string * option BusinessData.t) : list SurveyData.t * gmap string N :=
  match snd fetched with
  | None => acc
  | Some d =>
      let category := category_of (BusinessData.publicValue1 d) in
      let categoryCount :=
        <[category := or_else (default 0 (snd acc !! category)) 0 + 1]> (snd acc) in
      ((fst acc ++ [survey_data (fst fetched) d])%list, categoryCount)
  end.

(** [surveysList] and [categoryCount] after the loop. *)
Definition load (fetched : list (string * option BusinessData.t))
  : list SurveyData.t * gmap string N :=
  fold_left load_one fetched ([], ∅).

Definition surveysList (fetched : list (string * option BusinessData.t)) : list SurveyData.t :=
  fst (load fetched).

(** The fields of [stats] that are counts. *)
Definition totalSurveys (fetched : list (string * option BusinessData.t)) : N :=
  N.of_nat (length (surveysList fetched)).

Definition verifiedCount (fetched : list (string * option BusinessData.t)) : N :=
  N.of_nat (length (filter (fun x => SurveyData.isVerified x = true) (surveysList fetched))).

Definition categoryBreakdown (fetched : list (string * option BusinessData.t))
  : gmap string N :=
  snd (load fetched).

(** The businesses whose data was fetched, in the order of the identifiers. *)
Definition loaded (fetched : list (string * option BusinessData.t))
  : list (string * BusinessData.t) :=
  omap (fun f => match snd f with Some d => Some (fst f, d) | None => None end) fetched.

(** The number of surveys of [l] in category [c]. *)
Definition in_category (c : string) (l : list SurveyData.t) : N :=
  N.of_nat (length (filter (fun x => SurveyData.category x = c) l)).

(** The sum of the entries of [m] for the categories of [cs]. *)
Definition breakdown_total (m : gmap string N) (cs : list string) : N :=
  foldr (fun c acc => default 0 (m !! c) + acc) 0 cs.

End Frontend.

(** Three identifiers; the data of the second could not be fetched. *)
Definition fetched_sample : list (string * option Frontend.BusinessData.t) :=
  [ ("survey-1",
     Some {| Frontend.BusinessData.name := "Q1"; Frontend.BusinessData.publicValue1 := 4;
             Frontend.BusinessData.publicValue2 := 0; Frontend.BusinessData.timestamp := 150;
             Frontend.BusinessData.creator := "0xA1"; Frontend.BusinessData.isVerified := true;
             Frontend.BusinessData.decryptedValue := 8 |});
    ("survey-2", None);
    ("survey-3",
     Some {| Frontend.BusinessData.name := "Q3"; Frontend.BusinessData.publicValue1 := 7;
             Frontend.BusinessData.publicValue2 := 0; Frontend.BusinessData.timestamp := 160;
             Frontend.BusinessData.creator := "0xB2"; Frontend.BusinessData.isVerified := false;
             Frontend.BusinessData.decryptedValue := 0 |}) ].

(** * Properties *)

(** ** Reading the storage after a write *)

Section Storage.

Implicit Types (s : State) (id dep i : uint256) (l : list EncryptedResponse).

Lemma survey_at_set_survey id m s id' :
  survey_at (set_survey id m s) id' = if decide (id = id') then m else survey_at s id'.
Proof.
  unfold survey_at, set_survey; simpl. case_decide as E.
  - subst. by rewrite lookup_insert_eq.
  - by rewrite lookup_insert_ne.
Qed.

Lemma departments_at_set_responses id dep l s id' :
  departments_at (set_responses id dep l s) id' =
    if decide (id = id') then <[dep := l]> (departments_at s id)
    else departments_at s id'.
Proof.
  unfold departments_at at 1. unfold set_responses; simpl. case_decide as E.
  - subst. by rewrite lookup_insert_eq.
  - rewrite lookup_insert_ne by done. reflexivity.
Qed.

Lemma responses_at_set_responses id dep l s id' dep' :
  responses_at (set_responses id dep l s) id' dep' =
    if decide (id = id' ∧ dep = dep') then l else responses_at s id' dep'.
Proof.
  unfold responses_at. rewrite departments_at_set_responses.
  destruct (decide (id = id')) as [->|E].
  - destruct (decide (dep = dep')) as [->|E'].
    + rewrite lookup_insert_eq. by rewrite decide_True.
    + rewrite lookup_insert_ne by done. rewrite decide_False; [done | tauto].
  - rewrite decide_False; [done | tauto].
Qed.

Lemma count_at_set_count id c s id' :
  count_at (set_count id c s) id' = if decide (id = id') then c else count_at s id'.
Proof.
  unfold count_at, set_count; simpl. case_decide as E.
  - subst. by rewrite lookup_insert_eq.
  - by rewrite lookup_insert_ne.
Qed.

Lemma responses_at_push id dep r s id' dep' :
  responses_at (push_response id dep r s) id' dep' =
    if decide (id = id' ∧ dep = dep') then (responses_at s id dep ++ [r])%list
    else responses_at s id' dep'.
Proof. apply responses_at_set_responses. Qed.

Lemma responses_at_update id dep i f s id' dep' :
  responses_at (update_response id dep i f s) id' dep' =
    if decide (id = id' ∧ dep = dep') then alter f (N.to_nat i) (responses_at s id dep)
    else responses_at s id' dep'.
Proof. apply responses_at_set_responses. Qed.

Lemma responses_at_init id dep : responses_at init id dep = [].
Proof. reflexivity. Qed.

(** The sum of the lengths of the values of a map, after one value is replaced. *)
Lemma sum_lengths_insert (m : gmap N (list EncryptedResponse)) dep l :
  map_fold (fun _ l acc => acc + N.of_nat (length l)) 0 (<[dep := l]> m)
    + N.of_nat (length (default [] (m !! dep)))
  = map_fold (fun _ l acc => acc + N.of_nat (length l)) 0 m + N.of_nat (length l).
Proof.
  set (f := fun (_ : N) (l : list EncryptedResponse) acc => acc + N.of_nat (length l)).
  assert (Hcomm : forall (j1 j2 : N) z1 z2 y, f j1 z1 (f j2 z2 y) = f j2 z2 (f j1 z1 y))
    by (intros; unfold f; lia).
  destruct (m !! dep) as [old|] eqn:E; simpl.
  - rewrite <- (insert_delete_eq m dep l).
    rewrite (map_fold_insert_L f 0 dep l (delete dep m)); [| auto | apply lookup_delete_eq].
    rewrite (map_fold_delete_L f 0 dep old m); [| auto | done].
    unfold f. rewrite <- !N.add_assoc. f_equal. apply N.add_comm.
  - rewrite (map_fold_insert_L f 0 dep l m); [| auto | done].
    unfold f. by rewrite N.add_0_r.
Qed.

Lemma total_responses_set_responses id dep l s id' :
  total_responses (set_responses id dep l s) id'
    + (if decide (id = id') then N.of_nat (length (responses_at s id dep)) else 0)
  = total_responses s id'
    + (if decide (id = id') then N.of_nat (length l) else 0).
Proof.
  unfold total_responses. rewrite departments_at_set_responses.
  destruct (decide (id = id')) as [->|E]; [| done].
  apply sum_lengths_insert.
Qed.

Lemma lengths_over_empty deps : lengths_over ∅ deps = 0.
Proof.
  induction deps as [|d deps IH]; [done |].
  simpl. rewrite IH. by rewrite lookup_empty.
Qed.

Lemma lengths_over_insert (m : gmap N (list EncryptedResponse)) k l deps :
  m !! k = None -> NoDup deps ->
  lengths_over (<[k := l]> m) deps =
    lengths_over m deps + (if decide (k ∈ deps) then N.of_nat (length l) else 0).
Proof.
  intros Hk. induction deps as [|d deps IH]; intros Hnd.
  - cbn [lengths_over foldr]. rewrite decide_False; [done | apply not_elem_of_nil].
  - apply NoDup_cons in Hnd as [Hd Hnd]. cbn [lengths_over foldr].
    fold (lengths_over (<[k := l]> m) deps). fold (lengths_over m deps).
    rewrite (IH Hnd).
    destruct (decide (d = k)) as [->|Hne].
    + rewrite lookup_insert_eq, Hk. cbn [default].
      rewrite (decide_False (P := k ∈ deps)) by done.
      rewrite (decide_True (P := k ∈ k :: deps)) by (apply elem_of_cons; by left).
      simpl. lia.
    + rewrite lookup_insert_ne by done.
      destruct (decide (k ∈ deps)) as [Hin|Hin].
      * rewrite decide_True by (apply elem_of_cons; by right). lia.
      * rewrite decide_False; [lia |]. apply not_elem_of_cons. by split.
Qed.

(** The fold over the stored departments is the sum over any list of
    departments, without repetition, that has every department with a
    response: a department without an entry has the empty sequence. *)
Lemma sum_lengths_over (m : gmap N (list EncryptedResponse)) deps :
  NoDup deps ->
  (forall d : N, default [] (m !! d) <> [] -> d ∈ deps) ->
  map_fold (fun _ l acc => acc + N.of_nat (length l)) 0 m = lengths_over m deps.
Proof.
  intros Hnd. induction m as [|k l m Hk IH] using map_ind; intros Hcover.
  - by rewrite map_fold_empty, lengths_over_empty.
  - rewrite map_fold_insert_L; [| intros; lia | done].
    rewrite lengths_over_insert by done. rewrite IH.
    + destruct (decide (k ∈ deps)) as [Hin|Hin]; [done |].
      destruct l as [|r l]; [done |].
      exfalso. apply Hin, Hcover. by rewrite lookup_insert_eq.
    + intros d Hd. apply Hcover.
      destruct (decide (d = k)) as [->|Hne]; [by rewrite Hk in Hd |].
      by rewrite lookup_insert_ne.
Qed.

Lemma total_responses_sum_over s id deps :
  NoDup deps ->
  (forall dep, responses_at s id dep <> [] -> dep ∈ deps) ->
  total_responses s id = sum_over s id deps.
Proof. apply sum_lengths_over. Qed.

End Storage.

(** ** The four entry points, in closed form *)

Section Calls.

Context {fhe : FHE.Lib}.

Implicit Types (s : State) (id dep q i now : uint256) (t : list Tx) (tx : Tx).

Lemma createSurvey_eq id name st en s :
  createSurvey id name st en s =
    if (String.length (surveyName (survey_at s id)) =? 0)%nat then
      if st <? en then Done tt (created id name st en s)
      else Abort InvalidTimeRange s
    else Abort DuplicateSurvey s.
Proof.
  unfold createSurvey, bind, get, require, modify, emit, ret, fail.
  destruct (String.length _ =? 0)%nat; [| done].
  by destruct (st <? en).
Qed.

Lemma submitEncryptedResponse_eq now id dep q e p s :
  submitEncryptedResponse now id dep q e p s =
    if isActive (survey_at s id) then
      if (startTime (survey_at s id) <=? now) && (now <=? endTime (survey_at s id)) then
        match FHE.fromExternal e p with
        | None => Abort (LibRevert "FHE.fromExternal") s
        | Some h =>
            if FHE.isInitialized h then
              if count_at s id <? MAX_UINT256 then Done tt (submitted now id dep q h s)
              else Abort (Panic 17) (pushed now id dep q h s)
            else Abort InvalidEncryptedInput s
        end
      else Abort OutOfWindow s
    else Abort SurveyInactive s.
Proof.
  unfold submitEncryptedResponse, FHE_fromExternal, FHE_allowThis,
    FHE_makePubliclyDecryptable, lift_option, bind, get, require, modify, emit, ret, fail.
  destruct (isActive _); [| done].
  destruct (_ && _); [| done].
  destruct (FHE.fromExternal e p) as [h|]; [| done].
  destruct (FHE.isInitialized h); [| done].
  unfold checked_incr.
  change (count_at (push_response id dep _ _) id) with (count_at s id).
  by destruct (count_at s id <? MAX_UINT256).
Qed.

Lemma verifyResponse_eq id dep q i cv p s :
  verifyResponse id dep q i cv p s =
    if i <? N.of_nat (length (responses_at s id dep)) then
      match responses_at s id dep !! N.to_nat i with
      | None => Abort (Panic 50) s
      | Some r =>
          if isVerified r then Abort AlreadyVerified s
          else if FHE.checkSignatures [FHE.toBytes32 (encryptedScore r)] cv p then
            match abi_decode_uint32 cv with
            | Some v => Done tt (verified id dep q i v s)
            | None => Abort MalformedClearValue s
            end
          else Abort InvalidDecryptionProof s
      end
    else Abort IndexOutOfRange s.
Proof.
  unfold verifyResponse, response_at, FHE_checkSignatures, lift_option,
    bind, get, require, modify, emit, ret, fail.
  destruct (i <? _); [| done].
  destruct (responses_at s id dep !! N.to_nat i) as [r|]; [| done].
  destruct (isVerified r); [done |]. simpl.
  destruct (FHE.checkSignatures _ _ _); [| done].
  by destruct (abi_decode_uint32 cv).
Qed.

Lemma closeSurvey_eq now id s :
  closeSurvey now id s =
    if isActive (survey_at s id) then
      if endTime (survey_at s id) <? now then Done tt (closed id s)
      else Abort SurveyStillInProgress s
    else Abort SurveyAlreadyClosed s.
Proof.
  unfold closeSurvey, bind, get, require, modify, ret, fail.
  destruct (isActive _); [| done].
  by destruct (_ <? now).
Qed.

(** The responses of [(id', dep')] after a successful verification. *)
Lemma responses_at_verified id dep q i v s id' dep' :
  responses_at (verified id dep q i v s) id' dep' =
    if decide (id = id' ∧ dep = dep')
    then alter (verified_with v) (N.to_nat i) (responses_at s id dep)
    else responses_at s id' dep'.
Proof.
  unfold verified.
  change (responses_at (add_event ?e ?s') id' dep') with (responses_at s' id' dep').
  rewrite !responses_at_update. rewrite (decide_True (P := id = id ∧ dep = dep)) by done.
  case_decide; [| done].
  by rewrite list_alter_alter_eq.
Qed.

Lemma responses_at_submitted now id dep q h s id' dep' :
  responses_at (submitted now id dep q h s) id' dep' =
    if decide (id = id' ∧ dep = dep')
    then (responses_at s id dep ++ [fresh_response h dep q now])%list
    else responses_at s id' dep'.
Proof.
  unfold submitted, pushed.
  change (responses_at (add_event ?e (set_count ?a ?b ?s')) id' dep')
    with (responses_at s' id' dep').
  by rewrite responses_at_push.
Qed.

End Calls.

(** ** One transaction *)

Section Steps.

Context {fhe : FHE.Lib}.

Implicit Types (s : State) (id dep q i now : uint256) (t : list Tx) (tx : Tx).

Lemma step_spec s tx : Step s tx (succeeds tx s) (step s tx).
Proof.
  destruct tx as [now [id name st en | id dep q e p | id dep q i cv p | id]];
    unfold step, succeeds;
    destruct (exec _ s) as [[] s' | err s'] eqn:E;
    cbn [commit];
    try (apply Step_abort; unfold succeeds; by rewrite E);
    cbv [exec fst snd] in E.
  - rewrite createSurvey_eq in E.
    destruct (String.length _ =? 0)%nat eqn:E1; [| done].
    destruct (st <? en) eqn:E2; [| done].
    injection E as <-.
    apply Step_create; [by apply Nat.eqb_eq | by apply N.ltb_lt].
  - rewrite submitEncryptedResponse_eq in E.
    destruct (isActive _) eqn:E1; [| done].
    destruct (_ && _) eqn:E2; [| done].
    destruct (FHE.fromExternal e p) as [h|] eqn:E3; [| done].
    destruct (FHE.isInitialized h) eqn:E4; [| done].
    destruct (count_at s id <? MAX_UINT256) eqn:E5; [| done].
    injection E as <-.
    apply andb_true_iff in E2 as [E2 E2'].
    apply N.leb_le in E2, E2'. apply N.ltb_lt in E5.
    unfold FHE.isInitialized in E4. apply negb_true_iff, N.eqb_neq in E4.
    by apply Step_submit.
  - rewrite verifyResponse_eq in E.
    destruct (i <? _) eqn:E1; [| done].
    destruct (responses_at s id dep !! N.to_nat i) as [r|] eqn:E2; [| done].
    destruct (isVerified r) eqn:E3; [done |].
    destruct (FHE.checkSignatures _ _ _) eqn:E4; [| done].
    destruct (abi_decode_uint32 cv) as [v|] eqn:E5; [| done].
    injection E as <-.
    by apply Step_verify with r.
  - rewrite closeSurvey_eq in E.
    destruct (isActive _) eqn:E1; [| done].
    destruct (_ <? now) eqn:E2; [| done].
    injection E as <-.
    apply Step_close; [done | by apply N.ltb_lt].
Qed.

Lemma run_cons s tx t : run s (tx :: t) = run (step s tx) t.
Proof. reflexivity. Qed.

Lemma run_app s t1 t2 : run s (t1 ++ t2) = run (run s t1) t2.
Proof. apply fold_left_app. Qed.

(** Induction over an execution. *)
Lemma run_invariant (P : State -> Prop) s t :
  P s -> (forall s tx, P s -> P (step s tx)) -> P (run s t).
Proof.
  intros H0 Hstep. revert s H0.
  induction t as [|tx t IH]; intros s H0; [done |].
  rewrite run_cons. apply IH, Hstep, H0.
Qed.

(** Induction over an execution in which no call satisfying [p] succeeds. *)
Lemma run_invariant_unless (p : Call -> bool) (P : State -> Prop) s t :
  P s ->
  (forall s tx, P s -> p (snd tx) && succeeds tx s = false -> P (step s tx)) ->
  none_succeeds p s t = true ->
  P (run s t).
Proof.
  intros H0 Hstep. revert s H0.
  induction t as [|tx t IH]; intros s H0 Hn; [done |].
  simpl in Hn. apply andb_true_iff in Hn as [Hn1 Hn2].
  apply negb_true_iff in Hn1.
  rewrite run_cons. apply IH; [by apply Hstep | done].
Qed.

End Steps.

(** Case analysis on the transaction [tx] run from [s]. *)
Ltac step_cases s tx :=
  let ok := fresh "ok" in
  let s' := fresh "s'" in
  let Eok := fresh "Eok" in
  let Es := fresh "Es" in
  let H := fresh "Hstep" in
  pose proof (step_spec s tx) as H;
  remember (succeeds tx s) as ok eqn:Eok;
  remember (step s tx) as s' eqn:Es;
  destruct H; cbn [fst snd] in *.

(** ** What a transaction leaves alone *)

Section Invariants.

Context {fhe : FHE.Lib}.

Implicit Types (s : State) (id dep q i now : uint256) (t : list Tx) (tx : Tx).
Implicit Types (r : EncryptedResponse) (n : nat).

Lemma is_verify_of_true id dep i id' dep' q i' cv p :
  is_verify_of id dep i (VerifyResponse id' dep' q i' cv p) = true <->
  id' = id /\ dep' = dep /\ i' = i.
Proof.
  simpl. rewrite !andb_true_iff, !N.eqb_eq. tauto.
Qed.

(** A verified response is never written again. *)
Lemma step_keeps_verified s tx id dep n r :
  responses_at s id dep !! n = Some r ->
  isVerified r = true ->
  responses_at (step s tx) id dep !! n = Some r.
Proof.
  intros Hr Hv. step_cases s tx; try done.
  - rewrite responses_at_submitted. case_decide as E; [| done].
    destruct E as [-> ->]. by apply lookup_app_l_Some.
  - rewrite responses_at_verified. case_decide as E; [| done].
    destruct E as [-> ->].
    destruct (decide (N.to_nat i = n)) as [<-|Hne].
    + congruence.
    + by rewrite list_lookup_alter_ne.
Qed.

Lemma run_keeps_verified s t id dep n r :
  responses_at s id dep !! n = Some r ->
  isVerified r = true ->
  responses_at (run s t) id dep !! n = Some r.
Proof.
  intros Hr Hv.
  apply (run_invariant (fun s => responses_at s id dep !! n = Some r)); [done |].
  intros s0 tx H0. by apply step_keeps_verified.
Qed.

Lemma unverified_at_init id dep n : unverified_at init id dep n.
Proof. intros r. by rewrite responses_at_init. Qed.

(** A slot stays unverified until a [verifyResponse] on it succeeds. *)
Lemma step_keeps_unverified s tx id dep i :
  unverified_at s id dep (N.to_nat i) ->
  is_verify_of id dep i (snd tx) && succeeds tx s = false ->
  unverified_at (step s tx) id dep (N.to_nat i).
Proof.
  intros Hu Hn. step_cases s tx; try done.
  - intros r. rewrite responses_at_submitted. case_decide as E; [| apply Hu].
    destruct E as [-> ->]. intros [Hr | [_ Hr]]%lookup_app_Some; [by apply Hu |].
    apply list_lookup_singleton_Some in Hr as [_ <-]. done.
  - intros r0. rewrite responses_at_verified. case_decide as E; [| apply Hu].
    destruct E as [-> ->].
    destruct (decide (i0 = i)) as [->|Hne].
    + rewrite andb_true_r in Hn.
      assert (is_verify_of id dep i (VerifyResponse id dep q i cv p) = true)
        by by apply is_verify_of_true.
      congruence.
    + rewrite list_lookup_alter_ne by lia. apply Hu.
Qed.

Lemma run_keeps_unverified s t id dep i :
  unverified_at s id dep (N.to_nat i) ->
  none_succeeds (is_verify_of id dep i) s t = true ->
  unverified_at (run s t) id dep (N.to_nat i).
Proof.
  intros Hu. apply (run_invariant_unless _ (fun s => unverified_at s id dep (N.to_nat i))).
  - done.
  - intros s0 tx H0 Hn. by apply step_keeps_unverified.
Qed.

(** The sequences only grow. *)
Lemma step_length s tx id dep :
  (length (responses_at s id dep) <= length (responses_at (step s tx) id dep))%nat.
Proof.
  step_cases s tx; try done.
  - rewrite responses_at_submitted. case_decide as E; [| done].
    destruct E as [-> ->]. rewrite length_app. lia.
  - rewrite responses_at_verified. case_decide as E; [| done].
    destruct E as [-> ->]. by rewrite length_alter.
Qed.

Lemma run_length s t id dep :
  (length (responses_at s id dep) <= length (responses_at (run s t) id dep))%nat.
Proof.
  apply (run_invariant
           (fun s' => (length (responses_at s id dep) <= length (responses_at s' id dep))%nat));
    [done |].
  intros s0 tx H0. etrans; [exact H0 | apply step_length].
Qed.

End Invariants.

(** ** What a transaction changes *)

Section Effects.

Context {fhe : FHE.Lib}.

Implicit Types (s : State) (id dep q i now : uint256) (t : list Tx) (tx : Tx).
Implicit Types (r : EncryptedResponse) (n : nat).

Lemma survey_at_created id name st en s id' :
  survey_at (created id name st en s) id' =
    if decide (id = id')
    then {| surveyName := name; startTime := st; endTime := en; isActive := true |}
    else survey_at s id'.
Proof. apply survey_at_set_survey. Qed.

Lemma survey_at_closed id s id' :
  survey_at (closed id s) id' =
    if decide (id = id') then with_isActive false (survey_at s id) else survey_at s id'.
Proof. apply survey_at_set_survey. Qed.

Lemma count_at_submitted now id dep q h s id' :
  count_at (submitted now id dep q h s) id' =
    if decide (id = id') then count_at s id + 1 else count_at s id'.
Proof. exact (count_at_set_count id _ (pushed now id dep q h s) id'). Qed.

Lemma total_responses_submitted now id dep q h s id' :
  total_responses (submitted now id dep q h s) id' =
    total_responses s id' + (if decide (id = id') then 1 else 0).
Proof.
  pose proof (total_responses_set_responses id dep
    (responses_at s id dep ++ [fresh_response h dep q now])%list
    (add_acl (MakePubliclyDecryptable h) (add_acl (AllowThis h) s)) id') as H.
  change (total_responses (submitted now id dep q h s) id' + 
          (if decide (id = id') then N.of_nat (length (responses_at s id dep)) else 0)
          = total_responses s id' +
            (if decide (id = id')
             then N.of_nat (length (responses_at s id dep ++ [fresh_response h dep q now]))
             else 0)) in H.
  rewrite length_app in H. simpl in H.
  destruct (decide (id = id')); lia.
Qed.

Lemma total_responses_update id dep i f s id' :
  total_responses (update_response id dep i f s) id' = total_responses s id'.
Proof.
  pose proof (total_responses_set_responses id dep
    (alter f (N.to_nat i) (responses_at s id dep)) s id') as H.
  rewrite length_alter in H. fold (update_response id dep i f s) in H.
  destruct (decide (id = id')); lia.
Qed.

Lemma total_responses_verified id dep q i v s id' :
  total_responses (verified id dep q i v s) id' = total_responses s id'.
Proof.
  unfold verified.
  change (total_responses (add_event ?e ?s') id') with (total_responses s' id').
  by rewrite !total_responses_update.
Qed.

(** The counter of [id] moves by one on a successful submission to [id],
    and only then. *)
Lemma step_count s tx id :
  count_at (step s tx) id =
    count_at s id + (if is_submit_of id (snd tx) && succeeds tx s then 1 else 0).
Proof.
  step_cases s tx; cbn [is_submit_of]; rewrite <- ?Eok, ?andb_false_r, ?N.add_0_r; try done.
  rewrite count_at_submitted, andb_true_r.
  destruct (N.eqb_spec id0 id) as [->|Hne].
  - by rewrite decide_True.
  - rewrite decide_False by done. lia.
Qed.

Lemma step_total s tx id :
  total_responses (step s tx) id =
    total_responses s id + (if is_submit_of id (snd tx) && succeeds tx s then 1 else 0).
Proof.
  step_cases s tx; cbn [is_submit_of]; rewrite <- ?Eok, ?andb_false_r, ?N.add_0_r; try done.
  - rewrite total_responses_submitted, andb_true_r.
    destruct (N.eqb_spec id0 id) as [->|Hne].
    + by rewrite decide_True.
    + by rewrite decide_False.
  - apply total_responses_verified.
Qed.

(** A verification rewrites no field that the submission set. *)
Lemma map_submission_of_alter v n (l : list EncryptedResponse) :
  map submission_of (alter (verified_with v) n l) = map submission_of l.
Proof.
  revert n. induction l as [|r l IH]; intros [|n]; simpl; try done.
  f_equal. apply IH.
Qed.

Lemma submissions_cons id dep s tx t :
  submissions id dep s (tx :: t) =
    (submissions id dep s [tx] ++ submissions id dep (step s tx) t)%list.
Proof. simpl. by rewrite app_nil_r. Qed.

Lemma step_submissions s tx id dep :
  map submission_of (responses_at (step s tx) id dep) =
    (map submission_of (responses_at s id dep) ++ submissions id dep s [tx])%list.
Proof.
  step_cases s tx.
  - destruct tx as [now []]; simpl; rewrite ?H, ?andb_false_r; by rewrite ?app_nil_r.
  - by rewrite app_nil_r.
  - simpl. rewrite <- Eok, andb_true_r, H1, responses_at_submitted.
    destruct (N.eqb_spec id0 id) as [->|Hne]; simpl.
    + destruct (N.eqb_spec dep0 dep) as [->|Hne]; simpl.
      * rewrite decide_True by done. by rewrite map_app.
      * rewrite decide_False by tauto. by rewrite app_nil_r.
    + rewrite decide_False by tauto. by rewrite app_nil_r.
  - rewrite app_nil_r, responses_at_verified.
    case_decide as E; [| done]. destruct E as [-> ->].
    apply map_submission_of_alter.
  - by rewrite app_nil_r.
Qed.

Lemma run_submissions s t id dep :
  map submission_of (responses_at (run s t) id dep) =
    (map submission_of (responses_at s id dep) ++ submissions id dep s t)%list.
Proof.
  revert s. induction t as [|tx t IH]; intros s.
  - simpl. by rewrite app_nil_r.
  - rewrite submissions_cons, run_cons, IH, step_submissions. by rewrite app_assoc.
Qed.

Lemma untouched_init id : untouched init id.
Proof. done. Qed.

Lemma is_create_of_true id id' name st en :
  is_create_of id (CreateSurvey id' name st en) = true <-> id' = id.
Proof. simpl. apply N.eqb_eq. Qed.

Lemma step_keeps_untouched s tx id :
  untouched s id ->
  is_create_of id (snd tx) && succeeds tx s = false ->
  untouched (step s tx) id.
Proof.
  intros (Hs & Hc & Hr) Hn. step_cases s tx; try done.
  - rewrite andb_true_r in Hn. apply N.eqb_neq in Hn.
    split_and!; try done. by rewrite survey_at_created, decide_False.
  - destruct (decide (id0 = id)) as [->|Hne].
    + rewrite Hs in H. done.
    + split_and!; [done | by rewrite count_at_submitted, decide_False |].
      intros dep'. rewrite responses_at_submitted, decide_False by tauto. apply Hr.
  - destruct (decide (id0 = id)) as [->|Hne].
    + rewrite Hr in H. done.
    + split_and!; try done.
      intros dep'. rewrite responses_at_verified, decide_False by tauto. apply Hr.
  - destruct (decide (id0 = id)) as [->|Hne].
    + rewrite Hs in H. done.
    + split_and!; try done. by rewrite survey_at_closed, decide_False.
Qed.

Lemma run_keeps_untouched s t id :
  untouched s id ->
  none_succeeds (is_create_of id) s t = true ->
  untouched (run s t) id.
Proof.
  intros Hu. apply (run_invariant_unless _ (fun s => untouched s id)); [done |].
  intros s0 tx H0 Hn. by apply step_keeps_untouched.
Qed.

End Effects.

(** ** Verification *)

Section Verification.

Context {fhe : FHE.Lib}.

Implicit Types (s : State) (id dep q i now : uint256) (t : list Tx) (tx : Tx).
Implicit Types (r : EncryptedResponse) (n : nat).

Lemma lookup_in_range (l : list EncryptedResponse) i :
  i < N.of_nat (length l) -> exists r, l !! N.to_nat i = Some r.
Proof.
  intros Hi. apply lookup_lt_is_Some_2. lia.
Qed.

Lemma in_range_ltb (l : list EncryptedResponse) i r :
  l !! N.to_nat i = Some r -> (i <? N.of_nat (length l)) = true.
Proof.
  intros Hr. apply lookup_lt_Some in Hr. apply N.ltb_lt. lia.
Qed.

(** [verifyResponse] on a verified response. *)
Lemma verifyResponse_verified s id dep q i cv p r :
  responses_at s id dep !! N.to_nat i = Some r ->
  isVerified r = true ->
  verifyResponse id dep q i cv p s = Abort AlreadyVerified s.
Proof.
  intros Hr Hv. rewrite verifyResponse_eq, (in_range_ltb _ _ _ Hr), Hr, Hv. done.
Qed.

(** [verifyResponse] on an unverified response, with a proof and a clear
    value that pass. *)
Lemma verifyResponse_unverified s id dep q i cv p r v :
  responses_at s id dep !! N.to_nat i = Some r ->
  isVerified r = false ->
  FHE.checkSignatures [FHE.toBytes32 (encryptedScore r)] cv p = true ->
  abi_decode_uint32 cv = Some v ->
  verifyResponse id dep q i cv p s = Done tt (verified id dep q i v s) /\
  responses_at (verified id dep q i v s) id dep !! N.to_nat i = Some (verified_with v r).
Proof.
  intros Hr Hv Hc Hd. split.
  - rewrite verifyResponse_eq, (in_range_ltb _ _ _ Hr), Hr, Hv, Hc, Hd. done.
  - rewrite responses_at_verified, decide_True by done.
    by rewrite list_lookup_alter_eq, Hr.
Qed.

(** A successful [verifyResponse], read backwards. *)
Lemma verifyResponse_Done s id dep q i cv p s' :
  verifyResponse id dep q i cv p s = Done tt s' ->
  exists r v,
    responses_at s id dep !! N.to_nat i = Some r /\
    isVerified r = false /\
    abi_decode_uint32 cv = Some v /\
    s' = verified id dep q i v s /\
    responses_at s' id dep !! N.to_nat i = Some (verified_with v r).
Proof.
  rewrite verifyResponse_eq. intros E.
  destruct (i <? _); [| done].
  destruct (responses_at s id dep !! N.to_nat i) as [r|] eqn:Hr; [| done].
  destruct (isVerified r) eqn:Hv; [done |].
  destruct (FHE.checkSignatures _ _ _) eqn:Hc; [| done].
  destruct (abi_decode_uint32 cv) as [v|] eqn:Hd; [| done].
  injection E as <-. exists r, v. split_and!; try done.
  by apply verifyResponse_unverified with cv p.
Qed.

(** C1.  Take a stored response on which no [verifyResponse] has
    succeeded so far.  The call whose index, proof and clear value pass
    the checks succeeds, sets [isVerified] and stores the decoded value.
    After that, whatever transactions follow, every [verifyResponse] on the
    same survey, department and index aborts with "Response already
    verified", whatever its question, clear value and proof; it writes
    nothing, and the response still holds the flag and the score. *)
Theorem verify_exactly_once t id dep q i cv p v :
  none_succeeds (is_verify_of id dep i) init t = true ->
  i < N.of_nat (length (responses_at (run init t) id dep)) ->
  (forall r, responses_at (run init t) id dep !! N.to_nat i = Some r ->
             FHE.checkSignatures [FHE.toBytes32 (encryptedScore r)] cv p = true) ->
  abi_decode_uint32 cv = Some v ->
  exists s' r',
    verifyResponse id dep q i cv p (run init t) = Done tt s' /\
    responses_at s' id dep !! N.to_nat i = Some r' /\
    isVerified r' = true /\ decryptedScore r' = v /\
    forall t' now' q' cv' p',
      verifyResponse id dep q' i cv' p' (run s' t') = Abort AlreadyVerified (run s' t') /\
      step (run s' t') (now', VerifyResponse id dep q' i cv' p') = run s' t' /\
      responses_at (run s' t') id dep !! N.to_nat i = Some r'.
Proof.
  intros Hfirst Hi Hc Hd.
  destruct (lookup_in_range _ _ Hi) as [r Hr].
  pose proof (run_keeps_unverified init t id dep i (unverified_at_init _ _ _) Hfirst r Hr)
    as [Hv _].
  destruct (verifyResponse_unverified _ id dep q i cv p r v Hr Hv (Hc r Hr) Hd) as [Hdone Hr'].
  exists (verified id dep q i v (run init t)), (verified_with v r).
  split_and!; try done.
  intros t' now' q' cv' p'.
  pose proof (run_keeps_verified _ t' id dep _ _ Hr' eq_refl) as Hkept.
  pose proof (verifyResponse_verified _ id dep q' i cv' p' _ Hkept eq_refl) as Hab.
  split_and!; try done.
  unfold step, exec; cbn [fst snd]. by rewrite Hab.
Qed.

(** C5.  For a stored response: while no [verifyResponse] on it has
    succeeded, [getDecryptedResponse] aborts with "Response not verified";
    and once a [verifyResponse] on it succeeds, [getDecryptedResponse]
    returns the 32-bit value decoded from the clear value of that call, in
    every later state. *)
Theorem read_verified t id dep i :
  i < N.of_nat (length (responses_at (run init t) id dep)) ->
  (none_succeeds (is_verify_of id dep i) init t = true ->
   forall q, getDecryptedResponse id dep q i (run init t) = inl NotYetVerified) /\
  (forall q cv p s',
     verifyResponse id dep q i cv p (run init t) = Done tt s' ->
     exists v, abi_decode_uint32 cv = Some v /\ v < 2 ^ 32 /\
       forall t' q', getDecryptedResponse id dep q' i (run s' t') = inr v).
Proof.
  intros Hi. split.
  - intros Hnone q.
    destruct (lookup_in_range _ _ Hi) as [r Hr].
    pose proof (run_keeps_unverified init t id dep i (unverified_at_init _ _ _) Hnone r Hr)
      as [Hv _].
    unfold getDecryptedResponse. by rewrite (in_range_ltb _ _ _ Hr), Hr, Hv.
  - intros q cv p s' Hdone.
    destruct (verifyResponse_Done _ _ _ _ _ _ _ _ Hdone) as (r & v & Hr & Hv & Hd & -> & Hr').
    exists v. split_and!; [done | |].
    + unfold abi_decode_uint32 in Hd.
      destruct (length cv <? 32)%nat; [done |].
      destruct (_ <? 2 ^ 32) eqn:E; [| done].
      injection Hd as <-. by apply N.ltb_lt.
    + intros t' q'.
      pose proof (run_keeps_verified _ t' id dep _ _ Hr' eq_refl) as Hkept.
      unfold getDecryptedResponse. by rewrite (in_range_ltb _ _ _ Hkept), Hkept.
Qed.

(** C9.  For a stored response on which no [verifyResponse] has
    succeeded, [getResponseDetails] succeeds and returns, after the three
    fields set by the submission, [isVerified = false] and
    [decryptedScore = 0]. *)
Theorem unverified_details t id dep q i :
  none_succeeds (is_verify_of id dep i) init t = true ->
  i < N.of_nat (length (responses_at (run init t) id dep)) ->
  exists r,
    responses_at (run init t) id dep !! N.to_nat i = Some r /\
    getResponseDetails id dep q i (run init t) =
      inr (departmentId r, questionId r, timestamp r, false, 0).
Proof.
  intros Hnone Hi.
  destruct (lookup_in_range _ _ Hi) as [r Hr].
  pose proof (run_keeps_unverified init t id dep i (unverified_at_init _ _ _) Hnone r Hr)
    as [Hv Hs].
  exists r. split; [done |].
  unfold getResponseDetails. by rewrite (in_range_ltb _ _ _ Hr), Hr, Hv, Hs.
Qed.

End Verification.

(** ** Surveys and submissions *)

Section Surveys.

Context {fhe : FHE.Lib}.

Implicit Types (s : State) (id dep q i now : uint256) (t : list Tx) (tx : Tx).
Implicit Types (r : EncryptedResponse) (n : nat).

Lemma out_of_range_ltb s id dep i :
  responses_at s id dep = [] ->
  (i <? N.of_nat (length (responses_at s id dep))) = false.
Proof. intros ->. apply N.ltb_ge. simpl. lia. Qed.

(** C10.  A survey identifier on which no [createSurvey] has succeeded
    reads as the zero record: [submitEncryptedResponse] aborts with "Survey
    is not active", [closeSurvey] with "Survey already closed",
    [getResponseCount] returns 0, and [getEncryptedResponse],
    [getResponseDetails], [getDecryptedResponse] and [verifyResponse] abort
    with "Invalid response index" for every department and index. *)
Theorem never_created_survey t id :
  none_succeeds (is_create_of id) init t = true ->
  (forall now dep q e p,
     submitEncryptedResponse now id dep q e p (run init t) =
       Abort SurveyInactive (run init t)) /\
  (forall now, closeSurvey now id (run init t) = Abort SurveyAlreadyClosed (run init t)) /\
  getResponseCount id (run init t) = inr 0 /\
  (forall dep q i,
     getEncryptedResponse id dep q i (run init t) = inl IndexOutOfRange /\
     getResponseDetails id dep q i (run init t) = inl IndexOutOfRange /\
     getDecryptedResponse id dep q i (run init t) = inl IndexOutOfRange /\
     forall cv p,
       verifyResponse id dep q i cv p (run init t) = Abort IndexOutOfRange (run init t)).
Proof.
  intros Hnone.
  destruct (run_keeps_untouched init t id (untouched_init id) Hnone) as (Hs & Hc & Hr).
  split_and!.
  - intros. rewrite submitEncryptedResponse_eq, Hs. done.
  - intros. rewrite closeSurvey_eq, Hs. done.
  - unfold getResponseCount. by rewrite Hc.
  - intros dep q i.
    pose proof (out_of_range_ltb _ id dep i (Hr dep)) as Hi.
    unfold getEncryptedResponse, getResponseDetails, getDecryptedResponse.
    rewrite Hi. split_and!; try done.
    intros. by rewrite verifyResponse_eq, Hi.
Qed.

(** C7, as the code has it.  On a survey whose [isActive] flag is set:
    outside the window, [submitEncryptedResponse] aborts with "Survey not in
    progress"; inside the window, with an input that [FHE.fromExternal]
    accepts and turns into an initialized handle, and a counter below
    [2^256 - 1], it succeeds. *)
Theorem submit_window_gating s now id dep q e p :
  isActive (survey_at s id) = true ->
  (now < startTime (survey_at s id) \/ endTime (survey_at s id) < now ->
   submitEncryptedResponse now id dep q e p s = Abort OutOfWindow s) /\
  (startTime (survey_at s id) <= now <= endTime (survey_at s id) ->
   forall h, FHE.fromExternal e p = Some h -> FHE.isInitialized h = true ->
   count_at s id < MAX_UINT256 ->
   submitEncryptedResponse now id dep q e p s = Done tt (submitted now id dep q h s)).
Proof.
  intros Ha. rewrite submitEncryptedResponse_eq, Ha. split.
  - intros Hout.
    assert ((startTime (survey_at s id) <=? now) && (now <=? endTime (survey_at s id)) = false)
      as ->; [| done].
    apply andb_false_iff. rewrite !N.leb_gt. tauto.
  - intros [H1 H2] h He Hh Hc.
    apply N.leb_le in H1, H2. apply N.ltb_lt in Hc.
    by rewrite H1, H2, He, Hh, Hc.
Qed.

(** An inactive survey takes no submission, inside the window or not. *)
Lemma submit_inactive s now id dep q e p :
  isActive (survey_at s id) = false ->
  submitEncryptedResponse now id dep q e p s = Abort SurveyInactive s.
Proof. intros Ha. by rewrite submitEncryptedResponse_eq, Ha. Qed.

(** The checked increment is the one abort left to a submission that
    passed the three [require]s. *)
Lemma submit_counter_overflow s now id dep q e p h :
  isActive (survey_at s id) = true ->
  startTime (survey_at s id) <= now <= endTime (survey_at s id) ->
  FHE.fromExternal e p = Some h -> FHE.isInitialized h = true ->
  MAX_UINT256 <= count_at s id ->
  submitEncryptedResponse now id dep q e p s = Abort (Panic 17) (pushed now id dep q h s).
Proof.
  intros Ha [H1 H2] He Hh Hc.
  apply N.leb_le in H1, H2. apply N.ltb_ge in Hc.
  by rewrite submitEncryptedResponse_eq, Ha, H1, H2, He, Hh, Hc.
Qed.

(** C8.  When a transaction aborts, the state the contract is left in is
    the state before the call.  Moreover, unless the abort is the panic of
    the checked increment, nothing had been written when the abort was
    raised: every [require], library check and decoding of the four entry
    points comes before its first write. *)
Theorem abort_changes_nothing tx s e s' :
  exec tx s = Abort e s' ->
  step s tx = s /\
  (is_panic e = false -> s' = s) /\
  (is_panic e = true ->
   e = Panic 17 /\ exists now id dep q e' p, tx = (now, SubmitEncryptedResponse id dep q e' p)).
Proof.
  intros E. split; [unfold step; by rewrite E |].
  destruct tx as [now [id name st en | id dep q e' p | id dep q i cv p | id]];
    cbv [exec fst snd] in E.
  - rewrite createSurvey_eq in E.
    repeat case_match; try done; injection E as <- <-; (split; [done | discriminate]).
  - rewrite submitEncryptedResponse_eq in E.
    repeat case_match; try done; injection E as <- <-; split; try done.
    intros _. split; [done |]. by exists now, id, dep, q, e', p.
  - rewrite verifyResponse_eq in E.
    destruct (i <? _) eqn:Hi; [| injection E as <- <-; (split; [done | discriminate])].
    destruct (responses_at s id dep !! N.to_nat i) as [r|] eqn:Hr.
    + repeat case_match; try done; injection E as <- <-; (split; [done | discriminate]).
    + apply N.ltb_lt in Hi. apply lookup_ge_None in Hr. lia.
  - rewrite closeSurvey_eq in E.
    repeat case_match; try done; injection E as <- <-; (split; [done | discriminate]).
Qed.

(** C2, as the code has it.  [submitEncryptedResponse] returns no value.
    When it succeeds, the new response is the last element of the sequence
    of its survey and department, at the index that was the length of the
    sequence.  Hence, in every execution, the sequence of a survey and
    department lists the successful submissions to them in the order of
    the calls: the [k]-th one is at index [k - 1]. *)
Theorem submit_appends_in_order :
  (forall s now id dep q e p (ret_ : unit) s',
     submitEncryptedResponse now id dep q e p s = Done ret_ s' ->
     exists h,
       FHE.fromExternal e p = Some h /\
       responses_at s' id dep =
         (responses_at s id dep ++ [fresh_response h dep q now])%list /\
       responses_at s' id dep !! length (responses_at s id dep) =
         Some (fresh_response h dep q now)) /\
  (forall t id dep,
     map submission_of (responses_at (run init t) id dep) = submissions id dep init t).
Proof.
  split.
  - intros s now id dep q e p [] s' E.
    rewrite submitEncryptedResponse_eq in E.
    repeat case_match; try done. injection E as <-.
    eexists. split; [done |].
    rewrite responses_at_submitted, decide_True by done. split; [done |].
    by rewrite lookup_app_r, Nat.sub_diag.
  - intros t id dep. by rewrite run_submissions.
Qed.

(** C6.  In every state of an execution, the counter of a survey, which
    is what [getResponseCount] returns, is the sum over its departments of
    the lengths of their sequences: the sum over the departments in storage,
    and so the sum over any list of departments, without repetition, that
    leaves out none with a response.  A transaction adds one to the counter
    when it is a successful submission to that survey, and leaves the
    counter alone otherwise. *)
Theorem count_is_total_responses t id :
  getResponseCount id (run init t) = inr (count_at (run init t) id) /\
  count_at (run init t) id = total_responses (run init t) id /\
  (forall deps,
     NoDup deps ->
     (forall dep, responses_at (run init t) id dep <> [] -> dep ∈ deps) ->
     count_at (run init t) id = sum_over (run init t) id deps) /\
  forall tx,
    count_at (step (run init t) tx) id =
      count_at (run init t) id +
      (if is_submit_of id (snd tx) && succeeds tx (run init t) then 1 else 0).
Proof.
  assert (count_at (run init t) id = total_responses (run init t) id) as Hinv.
  { apply (run_invariant (fun s => count_at s id = total_responses s id)); [done |].
    intros s tx H. by rewrite step_count, step_total, H. }
  split_and!; [done | done | |].
  - intros deps Hnd Hcover. rewrite Hinv. by apply total_responses_sum_over.
  - intros tx. apply step_count.
Qed.

End Surveys.

(** ** Survey identifiers and the name as the mark of existence *)

Section Names.

Context {fhe : FHE.Lib}.

Implicit Types (s : State) (id dep q i now : uint256) (t : list Tx) (tx : Tx).

Lemma length_zero_empty (name : string) : String.length name = 0%nat <-> name = "".
Proof. destruct name; simpl; split; intros; (done || lia). Qed.

Lemma step_named_survey s tx id :
  surveyName (survey_at s id) <> "" -> same_survey s (step s tx) id.
Proof.
  intros Hname. unfold same_survey. step_cases s tx; try done.
  - rewrite survey_at_created. case_decide as E; [| done].
    subst. by apply length_zero_empty in H.
  - rewrite survey_at_closed. case_decide as E; [| done]. by subst.
Qed.

Lemma run_named_survey s t id :
  surveyName (survey_at s id) <> "" -> same_survey s (run s t) id.
Proof.
  intros Hname. apply (run_invariant (fun s' => same_survey s s' id)); [done |].
  intros s' tx (Hn & Hs & He & Ha).
  assert (surveyName (survey_at s' id) <> "") as Hname' by by rewrite Hn.
  destruct (step_named_survey s' tx id Hname') as (Hn' & Hs' & He' & Ha').
  unfold same_survey. rewrite Hn', Hs', He', Hn, Hs, He. split_and!; auto.
Qed.

(** With a non-empty name, a survey identifier is created once. *)
Lemma named_survey_created_once s t id name st en :
  surveyName (survey_at s id) <> "" ->
  createSurvey id name st en (run s t) = Abort DuplicateSurvey (run s t).
Proof.
  intros Hname. destruct (run_named_survey s t id Hname) as (Hn & _).
  rewrite createSurvey_eq, Hn.
  destruct (String.length _ =? 0)%nat eqn:E; [| done].
  by apply Nat.eqb_eq, length_zero_empty in E.
Qed.

(** With a non-empty name, a closed survey stays closed. *)
Lemma named_survey_stays_closed s t id :
  surveyName (survey_at s id) <> "" ->
  isActive (survey_at s id) = false ->
  isActive (survey_at (run s t) id) = false.
Proof.
  intros Hname Ha. destruct (run_named_survey s t id Hname) as (_ & _ & _ & H). auto.
Qed.

End Names.

(** C3, at the input where the code departs from it.  [createSurvey] takes
    an empty name; the survey it stores then passes the test of
    "Survey already exists" again, and a second [createSurvey] on the
    identifier succeeds and replaces the metadata. *)
Theorem createSurvey_twice_on_empty_name :
  createSurvey 1 "" 100 200 init = Done tt (created 1 "" 100 200 init) /\
  getSurveyMetadata 1 (created 1 "" 100 200 init) = inr ("", 100, 200, true) /\
  createSurvey 1 "Q3" 300 400 (created 1 "" 100 200 init) =
    Done tt (created 1 "Q3" 300 400 (created 1 "" 100 200 init)) /\
  getSurveyMetadata 1 (created 1 "Q3" 300 400 (created 1 "" 100 200 init)) =
    inr ("Q3", 300, 400, true).
Proof. split_and!; by vm_compute. Qed.

(** C4, at the input where the code departs from it.  A survey created
    with an empty name and closed after its window is made active again by
    a further [createSurvey] on its identifier. *)
Theorem closed_survey_reopens_on_empty_name :
  createSurvey 7 "" 100 200 init = Done tt (created 7 "" 100 200 init) /\
  closeSurvey 250 7 (created 7 "" 100 200 init) =
    Done tt (closed 7 (created 7 "" 100 200 init)) /\
  isActive (survey_at (closed 7 (created 7 "" 100 200 init)) 7) = false /\
  createSurvey 7 "" 300 400 (closed 7 (created 7 "" 100 200 init)) =
    Done tt (created 7 "" 300 400 (closed 7 (created 7 "" 100 200 init))) /\
  isActive (survey_at (created 7 "" 300 400 (closed 7 (created 7 "" 100 200 init))) 7) = true.
Proof. split_and!; by vm_compute. Qed.

(** * The claims on concrete inputs *)

(** C1 on the scenario: response 0 of survey 1, department 1, verified with
    the clear value 8. *)
Lemma verify_exactly_once_witness :
  none_succeeds (fhe := toy_fhe) (is_verify_of 1 1 0) init scenario = true /\
  0 < N.of_nat (length (responses_at (run (fhe := toy_fhe) init scenario) 1 1)) /\
  abi_decode_uint32 (abi_encode_uint256 8) = Some 8 /\
  exists s' r',
    verifyResponse (fhe := toy_fhe) 1 1 7 0 (abi_encode_uint256 8) [x01]
      (run (fhe := toy_fhe) init scenario) = Done tt s' /\
    responses_at s' 1 1 !! N.to_nat 0 = Some r' /\
    isVerified r' = true /\ decryptedScore r' = 8 /\
    forall t' now' q' cv' p',
      verifyResponse (fhe := toy_fhe) 1 1 q' 0 cv' p' (run (fhe := toy_fhe) s' t') =
        Abort AlreadyVerified (run (fhe := toy_fhe) s' t') /\
      step (fhe := toy_fhe) (run (fhe := toy_fhe) s' t') (now', VerifyResponse 1 1 q' 0 cv' p') =
        run (fhe := toy_fhe) s' t' /\
      responses_at (run (fhe := toy_fhe) s' t') 1 1 !! N.to_nat 0 = Some r'.
Proof.
  assert (H1 : none_succeeds (fhe := toy_fhe) (is_verify_of 1 1 0) init scenario = true)
    by (vm_compute; reflexivity).
  assert (H2 : 0 < N.of_nat (length (responses_at (run (fhe := toy_fhe) init scenario) 1 1)))
    by (vm_compute; reflexivity).
  assert (H4 : abi_decode_uint32 (abi_encode_uint256 8) = Some 8)
    by (vm_compute; reflexivity).
  split; [exact H1 |]. split; [exact H2 |]. split; [exact H4 |].
  exact (verify_exactly_once (fhe := toy_fhe) scenario 1 1 7 0 (abi_encode_uint256 8) [x01] 8
           H1 H2 (fun _ _ => eq_refl) H4).
Defined.

(** C5 on the scenario: response 0 before and after its verification. *)
Lemma read_verified_witness :
  0 < N.of_nat (length (responses_at (run (fhe := toy_fhe) init scenario) 1 1)) /\
  getDecryptedResponse 1 1 7 0 (run (fhe := toy_fhe) init scenario) = inl NotYetVerified /\
  exists v, abi_decode_uint32 (abi_encode_uint256 8) = Some v /\ v < 2 ^ 32 /\
    forall t' q', getDecryptedResponse 1 1 q' 0
                    (run (fhe := toy_fhe)
                       (verified 1 1 7 0 8 (run (fhe := toy_fhe) init scenario)) t') = inr v.
Proof.
  assert (H1 : 0 < N.of_nat (length (responses_at (run (fhe := toy_fhe) init scenario) 1 1)))
    by (vm_compute; reflexivity).
  assert (H2 : none_succeeds (fhe := toy_fhe) (is_verify_of 1 1 0) init scenario = true)
    by (vm_compute; reflexivity).
  assert (H3 : verifyResponse (fhe := toy_fhe) 1 1 7 0 (abi_encode_uint256 8) [x01]
                 (run (fhe := toy_fhe) init scenario)
               = Done tt (verified 1 1 7 0 8 (run (fhe := toy_fhe) init scenario)))
    by (vm_compute; reflexivity).
  split; [exact H1 |].
  destruct (read_verified (fhe := toy_fhe) scenario 1 1 0 H1) as [Hbefore Hafter].
  split; [exact (Hbefore H2 7) |].
  exact (Hafter 7 (abi_encode_uint256 8) [x01] _ H3).
Defined.

(** C9 on the scenario: the details of response 0 before its verification. *)
Lemma unverified_details_witness :
  none_succeeds (fhe := toy_fhe) (is_verify_of 1 1 0) init scenario = true /\
  0 < N.of_nat (length (responses_at (run (fhe := toy_fhe) init scenario) 1 1)) /\
  exists r,
    responses_at (run (fhe := toy_fhe) init scenario) 1 1 !! N.to_nat 0 = Some r /\
    getResponseDetails 1 1 7 0 (run (fhe := toy_fhe) init scenario) =
      inr (departmentId r, questionId r, timestamp r, false, 0).
Proof.
  assert (H1 : none_succeeds (fhe := toy_fhe) (is_verify_of 1 1 0) init scenario = true)
    by (vm_compute; reflexivity).
  assert (H2 : 0 < N.of_nat (length (responses_at (run (fhe := toy_fhe) init scenario) 1 1)))
    by (vm_compute; reflexivity).
  split; [exact H1 |]. split; [exact H2 |].
  exact (unverified_details (fhe := toy_fhe) scenario 1 1 7 0 H1 H2).
Defined.

(** C10 on the scenario: survey 2 was never created. *)
Lemma never_created_survey_witness :
  none_succeeds (fhe := toy_fhe) (is_create_of 2) init scenario_verified = true /\
  submitEncryptedResponse (fhe := toy_fhe) 150 2 1 7 42 [x01]
    (run (fhe := toy_fhe) init scenario_verified) =
    Abort SurveyInactive (run (fhe := toy_fhe) init scenario_verified) /\
  closeSurvey 300 2 (run (fhe := toy_fhe) init scenario_verified) =
    Abort SurveyAlreadyClosed (run (fhe := toy_fhe) init scenario_verified) /\
  getResponseCount 2 (run (fhe := toy_fhe) init scenario_verified) = inr 0 /\
  getDecryptedResponse 2 1 7 0 (run (fhe := toy_fhe) init scenario_verified) =
    inl IndexOutOfRange.
Proof.
  assert (H1 : none_succeeds (fhe := toy_fhe) (is_create_of 2) init scenario_verified = true)
    by (vm_compute; reflexivity).
  destruct (never_created_survey (fhe := toy_fhe) scenario_verified 2 H1)
    as (Hsubmit & Hclose & Hcount & Hindex).
  split; [exact H1 |]. split; [exact (Hsubmit 150 1 7 42 [x01]) |].
  split; [exact (Hclose 300) |]. split; [exact Hcount |].
  exact (proj1 (proj2 (proj2 (Hindex 1 7 0)))).
Defined.

(** C7, amended, on the scenario: survey 1 is active, with window [100, 200]. *)
Lemma submit_window_gating_witness :
  isActive (survey_at (run (fhe := toy_fhe) init scenario) 1) = true /\
  submitEncryptedResponse (fhe := toy_fhe) 250 1 1 7 43 [x01]
    (run (fhe := toy_fhe) init scenario) =
    Abort OutOfWindow (run (fhe := toy_fhe) init scenario) /\
  submitEncryptedResponse (fhe := toy_fhe) 160 1 1 7 43 [x01]
    (run (fhe := toy_fhe) init scenario) =
    Done tt (submitted 160 1 1 7 43 (run (fhe := toy_fhe) init scenario)).
Proof.
  assert (H1 : isActive (survey_at (run (fhe := toy_fhe) init scenario) 1) = true)
    by (vm_compute; reflexivity).
  split; [exact H1 |]. split.
  - apply (submit_window_gating (fhe := toy_fhe) _ 250 1 1 7 43 [x01] H1).
    right. vm_compute. reflexivity.
  - apply (submit_window_gating (fhe := toy_fhe) _ 160 1 1 7 43 [x01] H1).
    + split; vm_compute; discriminate.
    + reflexivity.
    + reflexivity.
    + vm_compute. reflexivity.
Defined.

(** C8 on the scenario: a submission after the window. *)
Lemma abort_changes_nothing_witness :
  exec (fhe := toy_fhe) (250, SubmitEncryptedResponse 1 1 7 43 [x01])
    (run (fhe := toy_fhe) init scenario) =
    Abort OutOfWindow (run (fhe := toy_fhe) init scenario) /\
  step (fhe := toy_fhe) (run (fhe := toy_fhe) init scenario)
    (250, SubmitEncryptedResponse 1 1 7 43 [x01]) =
    run (fhe := toy_fhe) init scenario.
Proof.
  assert (H1 : exec (fhe := toy_fhe) (250, SubmitEncryptedResponse 1 1 7 43 [x01])
                 (run (fhe := toy_fhe) init scenario) =
               Abort OutOfWindow (run (fhe := toy_fhe) init scenario))
    by (vm_compute; reflexivity).
  split; [exact H1 |].
  exact (proj1 (abort_changes_nothing (fhe := toy_fhe) _ _ _ _ H1)).
Defined.

(** C2, amended, on the scenario: a second submission lands at index 1. *)
Lemma submit_appends_in_order_witness :
  exists h,
    FHE.fromExternal (Lib := toy_fhe) 43 [x01] = Some h /\
    responses_at (submitted 160 1 1 7 43 (run (fhe := toy_fhe) init scenario)) 1 1 =
      (responses_at (run (fhe := toy_fhe) init scenario) 1 1
         ++ [fresh_response h 1 7 160])%list /\
    responses_at (submitted 160 1 1 7 43 (run (fhe := toy_fhe) init scenario)) 1 1
      !! length (responses_at (run (fhe := toy_fhe) init scenario) 1 1) =
      Some (fresh_response h 1 7 160).
Proof.
  apply (proj1 (submit_appends_in_order (fhe := toy_fhe))
           (run (fhe := toy_fhe) init scenario) 160 1 1 7 43 [x01] tt).
  vm_compute. reflexivity.
Defined.

(** C2 as stated fails: two successive submissions to one survey and
    department take the indices 0 and 1, and both calls return the same,
    empty, result; no reading of the result gives the index. *)
Lemma submit_returns_no_index :
  exists (r1 r2 : unit) s1 s2,
    submitEncryptedResponse (fhe := toy_fhe) 150 1 1 7 42 [x01]
      (created 1 "S1" 100 200 init) = Done r1 s1 /\
    submitEncryptedResponse (fhe := toy_fhe) 160 1 1 7 43 [x01] s1 = Done r2 s2 /\
    responses_at s2 1 1 = [fresh_response 42 1 7 150; fresh_response 43 1 7 160] /\
    ~ exists index_of : unit -> N, index_of r1 = 0 /\ index_of r2 = 1.
Proof.
  exists tt, tt. eexists. eexists.
  split; [vm_compute; reflexivity |].
  split; [vm_compute; reflexivity |].
  split; [vm_compute; reflexivity |].
  intros (index_of & H0 & H1). rewrite H0 in H1. discriminate.
Qed.

(** C7 as stated fails: after its window, on a survey that was closed,
    [submitEncryptedResponse] aborts with "Survey is not active", not with
    "Survey not in progress". *)
Lemma submit_after_close_not_out_of_window :
  endTime (survey_at (run (fhe := toy_fhe) init
                        [(50, CreateSurvey 1 "S1" 100 200); (250, CloseSurvey 1)]) 1) < 260 /\
  submitEncryptedResponse (fhe := toy_fhe) 260 1 1 7 42 [x01]
    (run (fhe := toy_fhe) init [(50, CreateSurvey 1 "S1" 100 200); (250, CloseSurvey 1)]) =
    Abort SurveyInactive
      (run (fhe := toy_fhe) init [(50, CreateSurvey 1 "S1" 100 200); (250, CloseSurvey 1)]) /\
  forall s', submitEncryptedResponse (fhe := toy_fhe) 260 1 1 7 42 [x01]
    (run (fhe := toy_fhe) init [(50, CreateSurvey 1 "S1" 100 200); (250, CloseSurvey 1)]) <>
    Abort OutOfWindow s'.
Proof.
  split; [vm_compute; reflexivity |].
  assert (submitEncryptedResponse (fhe := toy_fhe) 260 1 1 7 42 [x01]
    (run (fhe := toy_fhe) init [(50, CreateSurvey 1 "S1" 100 200); (250, CloseSurvey 1)]) =
    Abort SurveyInactive
      (run (fhe := toy_fhe) init [(50, CreateSurvey 1 "S1" 100 200); (250, CloseSurvey 1)]))
    as H by (vm_compute; reflexivity).
  split; [exact H |].
  intros s'. rewrite H. discriminate.
Qed.

(** C6 on the scenario: one response, and the departments 1, 2 and 3. *)
Lemma count_is_total_responses_witness :
  count_at (run (fhe := toy_fhe) init scenario_verified) 1 = 1 /\
  count_at (run (fhe := toy_fhe) init scenario_verified) 1 =
    sum_over (run (fhe := toy_fhe) init scenario_verified) 1 [1; 2; 3].
Proof.
  split; [vm_compute; reflexivity |].
  destruct (count_is_total_responses (fhe := toy_fhe) scenario_verified 1)
    as (_ & _ & Hsum & _).
  apply Hsum.
  - apply (bool_decide_unpack (NoDup ([1; 2; 3] : list N))). vm_compute. exact I.
  - intros dep Hdep.
    destruct (decide (dep = 1)) as [->|Hne]; [apply elem_of_cons; by left |].
    exfalso. apply Hdep.
    change (responses_at (run (fhe := toy_fhe) init scenario_verified) 1 dep)
      with (default [] (({[1 := [verified_with 8 (fresh_response 42 1 7 150)]]} : gmap N _) !! dep)).
    by rewrite lookup_singleton_ne.
Defined.

(** * Further properties of the contract *)

(** ** The survey registry *)

Section Registry.

Context {fhe : FHE.Lib}.

Implicit Types (s : State) (id dep q i now : uint256) (t : list Tx) (tx : Tx).

(** X1.  [createSurvey] in full: it aborts with "Survey already exists" when the
    stored name is not empty, whatever the window; with "Invalid time range"
    when the stored name is empty and [end_ <= start_]; and otherwise it
    ends, after which [getSurveyMetadata] returns the arguments and
    [isActive = true], the other surveys read as before, no response and no
    counter has changed, and one [SurveyCreated] event is added. *)
Theorem createSurvey_outcome s id name st en :
  (surveyName (survey_at s id) <> "" ->
   createSurvey id name st en s = Abort DuplicateSurvey s) /\
  (surveyName (survey_at s id) = "" -> en <= st ->
   createSurvey id name st en s = Abort InvalidTimeRange s) /\
  (surveyName (survey_at s id) = "" -> st < en ->
   exists s',
     createSurvey id name st en s = Done tt s' /\
     getSurveyMetadata id s' = inr (name, st, en, true) /\
     (forall id', id' <> id -> getSurveyMetadata id' s' = getSurveyMetadata id' s) /\
     (forall id' dep, responses_at s' id' dep = responses_at s id' dep) /\
     (forall id', count_at s' id' = count_at s id') /\
     events s' = (events s ++ [SurveyCreated id name])%list).
Proof.
  rewrite createSurvey_eq. split_and!.
  - intros Hname. destruct (String.length _ =? 0)%nat eqn:E; [| done].
    by apply Nat.eqb_eq, length_zero_empty in E.
  - intros -> Hle. apply N.ltb_ge in Hle. by rewrite Hle.
  - intros -> Hlt. apply N.ltb_lt in Hlt. rewrite Hlt. simpl.
    exists (created id name st en s). split_and!; try done.
    + unfold getSurveyMetadata. by rewrite survey_at_created, decide_True.
    + intros id' Hne. unfold getSurveyMetadata.
      by rewrite survey_at_created, decide_False.
Qed.

(** X2.  [closeSurvey] in full: it ends only on an active survey whose
    [endTime] is past.  It then clears the flag and nothing else: name and
    window stay, no response, counter or event changes.  Called again at
    once it aborts with "Survey already closed", and a submission aborts
    with "Survey is not active". *)
Theorem closeSurvey_outcome s now id s' :
  closeSurvey now id s = Done tt s' ->
  isActive (survey_at s id) = true /\
  endTime (survey_at s id) < now /\
  getSurveyMetadata id s' =
    inr (surveyName (survey_at s id), startTime (survey_at s id),
         endTime (survey_at s id), false) /\
  (forall id', id' <> id -> getSurveyMetadata id' s' = getSurveyMetadata id' s) /\
  (forall id' dep, responses_at s' id' dep = responses_at s id' dep) /\
  (forall id', count_at s' id' = count_at s id') /\
  events s' = events s /\
  (forall now', closeSurvey now' id s' = Abort SurveyAlreadyClosed s') /\
  (forall now' dep q e p,
     submitEncryptedResponse now' id dep q e p s' = Abort SurveyInactive s').
Proof.
  rewrite closeSurvey_eq.
  destruct (isActive (survey_at s id)) eqn:Ha; [| done].
  destruct (endTime (survey_at s id) <? now) eqn:Hn; [| done].
  intros [= <-]. apply N.ltb_lt in Hn.
  assert (survey_at (closed id s) id = with_isActive false (survey_at s id)) as Hs
    by by rewrite survey_at_closed, decide_True.
  split_and!; try done.
  - unfold getSurveyMetadata. by rewrite Hs.
  - intros id' Hne. unfold getSurveyMetadata. by rewrite survey_at_closed, decide_False.
  - intros now'. by rewrite closeSurvey_eq, Hs.
  - intros. by rewrite submitEncryptedResponse_eq, Hs.
Qed.

Lemma step_keeps_window s tx id :
  startTime (survey_at s id) < endTime (survey_at s id) ->
  startTime (survey_at (step s tx) id) < endTime (survey_at (step s tx) id).
Proof.
  intros Hw. step_cases s tx; try done.
  - rewrite survey_at_created. by case_decide.
  - rewrite survey_at_closed. case_decide; [by subst | done].
Qed.

Lemma step_survey_ok s tx id : survey_ok s id -> survey_ok (step s tx) id.
Proof.
  intros [Hu | Hw]; [| right; by apply step_keeps_window].
  destruct (is_create_of id (snd tx) && succeeds tx s) eqn:E.
  - right. apply andb_true_iff in E as [E1 E2].
    step_cases s tx; try done.
    apply is_create_of_true in E1 as ->.
    by rewrite survey_at_created, decide_True.
  - left. by apply step_keeps_untouched.
Qed.

(** X3.  In every state of an execution a survey record is untouched, with the
    zero metadata, a zero counter and no response, or has
    [startTime < endTime]. *)
Theorem surveys_have_a_window t id : survey_ok (run init t) id.
Proof.
  apply (run_invariant (fun s => survey_ok s id)).
  - left. apply untouched_init.
  - intros s tx. apply step_survey_ok.
Qed.

(** X4.  A survey stored with a name that is not empty keeps its name and its
    window in every execution, and every [createSurvey] on its identifier
    aborts with "Survey already exists". *)
Theorem named_survey_is_immutable s t id :
  surveyName (survey_at s id) <> "" ->
  surveyName (survey_at (run s t) id) = surveyName (survey_at s id) /\
  startTime (survey_at (run s t) id) = startTime (survey_at s id) /\
  endTime (survey_at (run s t) id) = endTime (survey_at s id) /\
  forall name st en,
    createSurvey id name st en (run s t) = Abort DuplicateSurvey (run s t).
Proof.
  intros Hname. destruct (run_named_survey s t id Hname) as (Hn & Hs & He & _).
  split_and!; try done.
  intros. by apply named_survey_created_once.
Qed.

Lemma step_inactive_keeps_lengths s tx id dep :
  isActive (survey_at s id) = false ->
  length (responses_at (step s tx) id dep) = length (responses_at s id dep) /\
  count_at (step s tx) id = count_at s id.
Proof.
  intros Ha. step_cases s tx; try done.
  - split; [| by rewrite count_at_submitted, decide_False by congruence].
    rewrite responses_at_submitted, decide_False; [done |]. intros [-> _]. congruence.
  - split; [| done]. rewrite responses_at_verified. case_decide as E; [| done].
    destruct E as [-> ->]. by rewrite length_alter.
Qed.

(** X5.  Once [closeSurvey] has ended on a survey whose name is not empty, the
    survey stays inactive in every execution: [closeSurvey] aborts with
    "Survey already closed", a submission aborts with "Survey is not
    active", and its sequences and its counter keep their lengths. *)
Theorem named_survey_close_is_final s now id s' t :
  surveyName (survey_at s id) <> "" ->
  closeSurvey now id s = Done tt s' ->
  isActive (survey_at (run s' t) id) = false /\
  (forall now', closeSurvey now' id (run s' t) = Abort SurveyAlreadyClosed (run s' t)) /\
  (forall now' dep q e p,
     submitEncryptedResponse now' id dep q e p (run s' t) =
       Abort SurveyInactive (run s' t)) /\
  (forall dep, length (responses_at (run s' t) id dep) = length (responses_at s' id dep)) /\
  count_at (run s' t) id = count_at s' id.
Proof.
  intros Hname Hclose.
  destruct (closeSurvey_outcome _ _ _ _ Hclose) as (_ & _ & Hmeta & _).
  unfold getSurveyMetadata in Hmeta. injection Hmeta as Hn _ _ Ha.
  assert (surveyName (survey_at s' id) <> "") as Hname' by by rewrite Hn.
  assert (forall t', isActive (survey_at (run s' t') id) = false) as Hclosed
    by (intros t'; by apply named_survey_stays_closed).
  split_and!.
  - apply Hclosed.
  - intros. by rewrite closeSurvey_eq, Hclosed.
  - intros. by rewrite submitEncryptedResponse_eq, Hclosed.
  - intros dep. induction t as [|tx t IH] using rev_ind; [done |].
    rewrite run_app. simpl.
    destruct (step_inactive_keeps_lengths (run s' t) tx id dep (Hclosed t)) as [-> _].
    apply IH.
  - induction t as [|tx t IH] using rev_ind; [done |].
    rewrite run_app. simpl.
    destruct (step_inactive_keeps_lengths (run s' t) tx id id (Hclosed t)) as [_ ->].
    apply IH.
Qed.

End Registry.

(** ** The response ledger *)

Section Ledger.

Context {fhe : FHE.Lib}.

Implicit Types (s : State) (id dep q i now : uint256) (t : list Tx) (tx : Tx).
Implicit Types (r : EncryptedResponse) (n : nat).

Lemma lookup_map_submission_of (l : list EncryptedResponse) n :
  map submission_of l !! n = submission_of <$> l !! n.
Proof.
  revert n. induction l as [|r l IH]; intros [|n]; simpl; try done.
Qed.

(** A stored response keeps its place and what the submission set, and,
    once verified, all of its fields. *)
Lemma run_keeps_submission s t id dep n r :
  responses_at s id dep !! n = Some r ->
  exists r', responses_at (run s t) id dep !! n = Some r' /\
             submission_of r' = submission_of r /\
             (isVerified r = true -> r' = r).
Proof.
  intros Hr.
  assert (map submission_of (responses_at (run s t) id dep) !! n = Some (submission_of r))
    as Hn.
  { rewrite run_submissions. apply lookup_app_l_Some.
    by rewrite lookup_map_submission_of, Hr. }
  rewrite lookup_map_submission_of in Hn.
  destruct (responses_at (run s t) id dep !! n) as [r'|] eqn:Hr'; [| done].
  exists r'. simpl in Hn.
  assert (submission_of r' = submission_of r) as Hsub by congruence.
  split_and!; try done.
  intros Hv. pose proof (run_keeps_verified s t id dep n r Hr Hv) as Hk. congruence.
Qed.

Lemma getEncryptedResponse_inr s id dep q i h :
  getEncryptedResponse id dep q i s = inr h <->
  exists r, responses_at s id dep !! N.to_nat i = Some r /\ encryptedScore r = h.
Proof.
  unfold getEncryptedResponse. split.
  - destruct (i <? _); [| done].
    destruct (responses_at s id dep !! N.to_nat i) as [r|]; [| done].
    intros [= <-]. by exists r.
  - intros (r & Hr & <-). by rewrite (in_range_ltb _ _ _ Hr), Hr.
Qed.

Lemma getResponseDetails_inr s id dep q i x :
  getResponseDetails id dep q i s = inr x <->
  exists r, responses_at s id dep !! N.to_nat i = Some r /\
            x = (departmentId r, questionId r, timestamp r, isVerified r, decryptedScore r).
Proof.
  unfold getResponseDetails. split.
  - destruct (i <? _); [| done].
    destruct (responses_at s id dep !! N.to_nat i) as [r|]; [| done].
    intros [= <-]. by exists r.
  - intros (r & Hr & ->). by rewrite (in_range_ltb _ _ _ Hr), Hr.
Qed.

(** X6.  The ledger only appends.  What [getEncryptedResponse] returns at an
    index it returns there in every later state, whatever the question
    passed; so do the department, question and timestamp of
    [getResponseDetails], and, once the response is verified, the flag and
    the score. *)
Theorem stored_response_is_stable s t id dep q q' i :
  (forall h, getEncryptedResponse id dep q i s = inr h ->
             getEncryptedResponse id dep q' i (run s t) = inr h) /\
  (forall d qn ts b v,
     getResponseDetails id dep q i s = inr (d, qn, ts, b, v) ->
     exists b' v',
       getResponseDetails id dep q' i (run s t) = inr (d, qn, ts, b', v') /\
       (b = true -> b' = true /\ v' = v)).
Proof.
  split.
  - intros h (r & Hr & <-)%getEncryptedResponse_inr.
    destruct (run_keeps_submission s t id dep _ r Hr) as (r' & Hr' & Hsub & _).
    apply getEncryptedResponse_inr. exists r'. split; [done |].
    unfold submission_of in Hsub. congruence.
  - intros d qn ts b v (r & Hr & E)%getResponseDetails_inr.
    injection E as -> -> -> -> ->.
    destruct (run_keeps_submission s t id dep _ r Hr) as (r' & Hr' & Hsub & Hv).
    exists (isVerified r'), (decryptedScore r'). split.
    + apply getResponseDetails_inr. exists r'. split; [done |].
      unfold submission_of in Hsub. congruence.
    + intros Hb. by rewrite (Hv Hb).
Qed.

(** X7.  A submission that ends passed the three gates, and can be read back
    at the index that was the length of its sequence: the handle through
    [getEncryptedResponse], the department, question and timestamp with
    [isVerified = false] and a zero score through [getResponseDetails];
    [getDecryptedResponse] aborts with "Response not verified", and
    [getResponseCount] has moved by one. *)
Theorem submit_then_read s now id dep q e p s' :
  submitEncryptedResponse now id dep q e p s = Done tt s' ->
  exists h,
    FHE.fromExternal e p = Some h /\ h <> 0 /\
    isActive (survey_at s id) = true /\
    startTime (survey_at s id) <= now <= endTime (survey_at s id) /\
    forall q',
      getEncryptedResponse id dep q' (N.of_nat (length (responses_at s id dep))) s' = inr h /\
      getResponseDetails id dep q' (N.of_nat (length (responses_at s id dep))) s' =
        inr (dep, q, now, false, 0) /\
      getDecryptedResponse id dep q' (N.of_nat (length (responses_at s id dep))) s' =
        inl NotYetVerified /\
      getResponseCount id s' = inr (count_at s id + 1).
Proof.
  rewrite submitEncryptedResponse_eq. intros E.
  destruct (isActive (survey_at s id)) eqn:Ha; [| done].
  destruct (_ && _) eqn:Hw; [| done].
  destruct (FHE.fromExternal e p) as [h|] eqn:He; [| done].
  destruct (FHE.isInitialized h) eqn:Hh; [| done].
  destruct (count_at s id <? MAX_UINT256) eqn:Hc; [| done].
  injection E as <-.
  apply andb_true_iff in Hw as [Hw1 Hw2]. apply N.leb_le in Hw1, Hw2.
  unfold FHE.isInitialized in Hh. apply negb_true_iff, N.eqb_neq in Hh.
  exists h. split_and!; try done.
  assert (responses_at (submitted now id dep q h s) id dep
            !! N.to_nat (N.of_nat (length (responses_at s id dep)))
          = Some (fresh_response h dep q now)) as Hr.
  { rewrite responses_at_submitted, decide_True, Nat2N.id by done.
    by rewrite lookup_app_r, Nat.sub_diag. }
  intros q'. split_and!.
  - apply getEncryptedResponse_inr. by eexists.
  - apply getResponseDetails_inr. by eexists.
  - unfold getDecryptedResponse. by rewrite (in_range_ltb _ _ _ Hr), Hr.
  - unfold getResponseCount. by rewrite count_at_submitted, decide_True.
Qed.

End Ledger.

(** ** What is in storage *)

Section Stored.

Context {fhe : FHE.Lib}.

Implicit Types (s : State) (id dep q i now : uint256) (t : list Tx) (tx : Tx).
Implicit Types (r : EncryptedResponse) (n : nat).

Lemma abi_decode_uint32_bound cv v : abi_decode_uint32 cv = Some v -> v < 2 ^ 32.
Proof.
  unfold abi_decode_uint32.
  destruct (length cv <? 32)%nat; [done |].
  destruct (_ <? 2 ^ 32) eqn:E; [| done].
  intros [= <-]. by apply N.ltb_lt.
Qed.

Lemma elem_of_alter (f : EncryptedResponse -> EncryptedResponse) n
    (l : list EncryptedResponse) x :
  x ∈ alter f n l -> x ∈ l \/ exists y, l !! n = Some y /\ x = f y.
Proof.
  intros [j Hj]%list_elem_of_lookup.
  destruct (decide (n = j)) as [->|Hne].
  - rewrite list_lookup_alter_eq in Hj.
    destruct (l !! j) as [y|] eqn:Hy; [| done].
    injection Hj as <-. right. by exists y.
  - rewrite list_lookup_alter_ne in Hj by done.
    left. apply list_elem_of_lookup. by exists j.
Qed.

Lemma ledger_ok_init : ledger_ok init.
Proof.
  intros id dep r Hr. rewrite responses_at_init in Hr. by apply elem_of_nil in Hr.
Qed.

Lemma step_ledger_ok s tx : ledger_ok s -> ledger_ok (step s tx).
Proof.
  intros Hok. step_cases s tx; try done.
  - intros id' dep' r.
    change (acl (submitted now id dep q h s))
      with ((acl s ++ [AllowThis h]) ++ [MakePubliclyDecryptable h])%list.
    rewrite responses_at_submitted.
    assert (forall r', r' ∈ responses_at s id' dep' ->
              well_formed dep' r' /\
              AllowThis (encryptedScore r') ∈
                ((acl s ++ [AllowThis h]) ++ [MakePubliclyDecryptable h])%list /\
              MakePubliclyDecryptable (encryptedScore r') ∈
                ((acl s ++ [AllowThis h]) ++ [MakePubliclyDecryptable h])%list) as Hold.
    { intros r' Hr'. destruct (Hok id' dep' r' Hr') as (Hwf & Ha & Hm).
      split_and!; [done | |]; rewrite !elem_of_app; tauto. }
    case_decide as E; [| apply Hold]. destruct E as [<- <-].
    intros [Hr | Hr]%elem_of_app; [by apply Hold |].
    apply list_elem_of_singleton in Hr as ->. simpl.
    split_and!.
    + by unfold well_formed.
    + rewrite !elem_of_app, !list_elem_of_singleton. tauto.
    + rewrite !elem_of_app, !list_elem_of_singleton. tauto.
  - intros id' dep' r0. rewrite responses_at_verified.
    change (acl (verified id dep q i v s)) with (acl s).
    case_decide as E; [| apply (Hok id' dep' r0)]. destruct E as [<- <-].
    intros [Hr | (y & Hy & ->)]%elem_of_alter; [exact (Hok _ _ _ Hr) |].
    assert (y ∈ responses_at s id dep) as Hin
      by (apply list_elem_of_lookup; eauto).
    destruct (Hok id dep y Hin) as ((Hd & Hh & _ & _) & Ha & Hm).
    split_and!; try done.
    unfold well_formed; simpl. split_and!; try done.
    by apply abi_decode_uint32_bound with cv.
Qed.

Lemma run_ledger_ok t : ledger_ok (run init t).
Proof. apply run_invariant; [apply ledger_ok_init | apply step_ledger_ok]. Qed.

(** X8.  Every response in storage sits in the sequence of the department it
    names, holds an initialized handle and a score below [2^32], and has
    the score 0 as long as it is not verified. *)
Theorem stored_responses_are_well_formed t id dep r :
  r ∈ responses_at (run init t) id dep -> well_formed dep r.
Proof. intros Hr. by destruct (run_ledger_ok t id dep r Hr). Qed.

(** X9.  For every handle in storage the contract has called [FHE.allowThis]
    and [FHE.makePubliclyDecryptable]. *)
Theorem stored_handles_are_publicly_decryptable t id dep r :
  r ∈ responses_at (run init t) id dep ->
  AllowThis (encryptedScore r) ∈ acl (run init t) /\
  MakePubliclyDecryptable (encryptedScore r) ∈ acl (run init t).
Proof. intros Hr. by destruct (run_ledger_ok t id dep r Hr) as (_ & Ha & Hm). Qed.

(** X10.  A transaction on one survey leaves the metadata, the counter and the
    sequences of every other survey as they are; and a submission or a
    verification leaves the sequences of every other department as they
    are. *)
Theorem other_keys_are_untouched s tx id dep :
  (survey_of (snd tx) <> id ->
   survey_at (step s tx) id = survey_at s id /\
   count_at (step s tx) id = count_at s id /\
   responses_at (step s tx) id dep = responses_at s id dep) /\
  (department_of (snd tx) <> Some dep ->
   responses_at (step s tx) id dep = responses_at s id dep).
Proof.
  split.
  - intros Hne. step_cases s tx; try done.
    + by rewrite survey_at_created, decide_False.
    + rewrite count_at_submitted, responses_at_submitted, !decide_False; tauto.
    + rewrite responses_at_verified, decide_False; tauto.
    + by rewrite survey_at_closed, decide_False.
  - intros Hne. step_cases s tx; try done.
    + rewrite responses_at_submitted, decide_False; [done |]. intros [_ ->]. done.
    + rewrite responses_at_verified, decide_False; [done |]. intros [_ ->]. done.
Qed.

Lemma length_le_total s id dep :
  N.of_nat (length (responses_at s id dep)) <= total_responses s id.
Proof.
  unfold responses_at, total_responses.
  destruct (departments_at s id !! dep) as [l|] eqn:E; simpl; [| lia].
  rewrite (map_fold_delete_L _ 0 dep l (departments_at s id)); [lia | intros; lia | done].
Qed.

Lemma step_count_bound s tx id :
  count_at s id <= MAX_UINT256 -> count_at (step s tx) id <= MAX_UINT256.
Proof.
  intros Hb. step_cases s tx; try done.
  rewrite count_at_submitted. case_decide; [subst; lia | done].
Qed.

Lemma counter_is_total t id :
  count_at (run init t) id = total_responses (run init t) id.
Proof.
  apply (run_invariant (fun s => count_at s id = total_responses s id)); [done |].
  intros s tx H. by rewrite step_count, step_total, H.
Qed.

(** X11.  The counter of a survey stays a [uint256], and no sequence of the
    survey is longer than it: an index that is valid in some department is
    below [getResponseCount]. *)
Theorem valid_index_below_count t id dep :
  N.of_nat (length (responses_at (run init t) id dep)) <= count_at (run init t) id /\
  count_at (run init t) id <= MAX_UINT256.
Proof.
  split.
  - rewrite (counter_is_total t id). apply length_le_total.
  - apply (run_invariant (fun s => count_at s id <= MAX_UINT256)); [done |].
    intros s tx. apply step_count_bound.
Qed.

End Stored.

(** ** The event log *)

Section EventLog.

Context {fhe : FHE.Lib}.

Implicit Types (s : State) (id dep q i now : uint256) (t : list Tx) (tx : Tx).
Implicit Types (r : EncryptedResponse) (n : nat).

Lemma count_of_nil {A} (p : A -> bool) : count_of p [] = 0.
Proof. done. Qed.

Lemma count_of_cons {A} (p : A -> bool) x l :
  count_of p (x :: l) = (if p x then 1 else 0) + count_of p l.
Proof.
  unfold count_of. rewrite filter_cons.
  destruct (p x); case_decide; try done; simpl length; lia.
Qed.

Lemma count_of_app {A} (p : A -> bool) l1 l2 :
  count_of p (l1 ++ l2) = count_of p l1 + count_of p l2.
Proof.
  unfold count_of. rewrite filter_app, length_app. lia.
Qed.

Lemma step_events s tx :
  events (step s tx) =
    (events s ++ (if succeeds tx s then emits (snd tx) else []))%list.
Proof.
  step_cases s tx; try done.
  - by rewrite app_nil_r.
  - simpl. by rewrite H2.
  - by rewrite app_nil_r.
Qed.

(** X12.  The log only grows: after an execution it is the log before, followed
    by one event for each [createSurvey], [submitEncryptedResponse] and
    [verifyResponse] that ended, in the order of the calls and with the
    arguments of the call (for a verification, the decoded score).
    [closeSurvey] and aborted calls add nothing. *)
Theorem log_is_the_successful_calls s t :
  events (run s t) = (events s ++ emitted s t)%list.
Proof.
  revert s. induction t as [|tx t IH]; intros s.
  - simpl. by rewrite app_nil_r.
  - rewrite run_cons, IH, step_events. simpl. by rewrite app_assoc.
Qed.

Lemma count_submitted_emits id c :
  count_of (is_submitted_event id) (emits c) = if is_submit_of id c then 1 else 0.
Proof.
  destruct c; simpl; try done.
  - rewrite count_of_cons, count_of_nil. simpl. by destruct (_ =? _).
  - by destruct (abi_decode_uint32 _).
Qed.

(** X13.  The [ResponseSubmitted] events of a survey in the log are as many as
    its counter says. *)
Theorem submitted_events_match_counter t id :
  count_of (is_submitted_event id) (events (run init t)) = count_at (run init t) id.
Proof.
  apply (run_invariant
           (fun s => count_of (is_submitted_event id) (events s) = count_at s id)); [done |].
  intros s tx H.
  rewrite step_events, count_of_app, step_count, H. f_equal.
  destruct (succeeds tx s).
  - rewrite andb_true_r. apply count_submitted_emits.
  - by rewrite andb_false_r.
Qed.

Lemma count_verified_alter v n (l : list EncryptedResponse) r :
  l !! n = Some r -> isVerified r = false ->
  count_of isVerified (alter (verified_with v) n l) = count_of isVerified l + 1.
Proof.
  revert n. induction l as [|x l IH]; intros [|n] Hr Hv; simpl in Hr; try done.
  - injection Hr as ->. simpl. rewrite !count_of_cons, Hv. simpl. lia.
  - simpl. rewrite !count_of_cons, <- N.add_assoc. f_equal. exact (IH n Hr Hv).
Qed.

Lemma step_verified_events s tx id dep :
  count_of (is_verified_event id dep) (events s) = count_of isVerified (responses_at s id dep) ->
  count_of (is_verified_event id dep) (events (step s tx)) =
    count_of isVerified (responses_at (step s tx) id dep).
Proof.
  intros Hinv. rewrite step_events, count_of_app, Hinv.
  step_cases s tx; rewrite <- ?Eok; simpl; try (by rewrite N.add_0_r).
  - rewrite responses_at_submitted.
    case_decide as E; [destruct E as [-> ->] |];
      rewrite ?count_of_app, !count_of_cons, !count_of_nil; simpl; lia.
  - rewrite H2, responses_at_verified, count_of_cons, count_of_nil. simpl.
    destruct (N.eqb_spec id0 id) as [->|Hne]; simpl.
    + destruct (N.eqb_spec dep0 dep) as [->|Hne]; simpl.
      * rewrite decide_True by done. rewrite (count_verified_alter v _ _ r) by done. lia.
      * rewrite decide_False by tauto. lia.
    + rewrite decide_False by tauto. lia.
Qed.

(** X14.  The [ResponseVerified] events of a survey and department in the log
    are as many as the verified responses in their sequence: each response
    is announced verified once. *)
Theorem verified_events_match_ledger t id dep :
  count_of (is_verified_event id dep) (events (run init t)) =
    count_of isVerified (responses_at (run init t) id dep).
Proof.
  apply (run_invariant
           (fun s => count_of (is_verified_event id dep) (events s) =
                     count_of isVerified (responses_at s id dep))); [done |].
  intros s tx. apply step_verified_events.
Qed.

End EventLog.

(** ** Timestamps *)

Section Clock.

Context {fhe : FHE.Lib}.

Implicit Types (s : State) (id dep q i now : uint256) (t : list Tx) (tx : Tx).
Implicit Types (r : EncryptedResponse) (n : nat).

Lemma step_in_window s tx id :
  surveyName (survey_at s id) <> "" -> in_window s id -> in_window (step s tx) id.
Proof.
  intros Hname Hw. step_cases s tx; try done.
  - intros dep' r. rewrite survey_at_created. case_decide as E; [| apply Hw].
    subst. by apply length_zero_empty in H.
  - intros dep' r. rewrite responses_at_submitted.
    change (survey_at (submitted now id0 dep q h s) id) with (survey_at s id).
    case_decide as E; [| apply Hw]. destruct E as [-> ->].
    intros [Hr | Hr]%elem_of_app; [by apply (Hw dep') |].
    by apply list_elem_of_singleton in Hr as ->.
  - intros dep' r0. rewrite responses_at_verified.
    change (survey_at (verified id0 dep q i v s) id) with (survey_at s id).
    case_decide as E; [| apply Hw]. destruct E as [-> ->].
    intros [Hr | (y & Hy & ->)]%elem_of_alter; [by apply (Hw dep') |].
    apply (Hw dep' y). apply list_elem_of_lookup. eauto.
  - intros dep' r. rewrite survey_at_closed.
    change (responses_at (closed id0 s) id dep') with (responses_at s id dep').
    case_decide as E; [subst; apply Hw | apply Hw].
Qed.

Lemma run_in_window s t id :
  surveyName (survey_at s id) <> "" -> in_window s id -> in_window (run s t) id.
Proof.
  intros Hname Hw.
  apply (run_invariant
           (fun s' => surveyName (survey_at s' id) <> "" /\ in_window s' id)); [done |].
  intros s' tx [Hn Hw']. split; [| by apply step_in_window].
  destruct (step_named_survey s' tx id Hn) as [-> _]. done.
Qed.

(** X15.  Created with a name that is not empty on an identifier without
    responses, a survey only ever holds responses whose timestamp is inside
    its window. *)
Theorem named_survey_responses_in_window s id name st en s' t dep r :
  (forall dep', responses_at s id dep' = []) ->
  name <> "" ->
  createSurvey id name st en s = Done tt s' ->
  r ∈ responses_at (run s' t) id dep ->
  st <= timestamp r <= en.
Proof.
  intros Hempty Hname Hcreate Hr.
  rewrite createSurvey_eq in Hcreate.
  destruct (String.length _ =? 0)%nat; [| done].
  destruct (st <? en); [| done]. injection Hcreate as <-.
  assert (survey_at (created id name st en s) id =
          {| surveyName := name; startTime := st; endTime := en; isActive := true |}) as Hs
    by by rewrite survey_at_created, decide_True.
  assert (surveyName (survey_at (created id name st en s) id) <> "") as Hn
    by by rewrite Hs.
  assert (in_window (created id name st en s) id) as Hw.
  { intros dep' r'.
    change (responses_at (created id name st en s) id dep') with (responses_at s id dep').
    rewrite Hempty. by intros ?%elem_of_nil. }
  pose proof (run_in_window _ t id Hn Hw dep r Hr) as Hin.
  destruct (run_named_survey _ t id Hn) as (_ & Hst & Hen & _).
  rewrite Hst, Hen, Hs in Hin. done.
Qed.

Lemma ascending_snoc ts x :
  ascending ts -> (forall y, y ∈ ts -> y <= x) -> ascending (ts ++ [x]).
Proof.
  induction ts as [|z ts IH]; intros Ha Hb; simpl.
  - split; [| done]. by intros y ?%elem_of_nil.
  - destruct Ha as [Hz Ha]. split.
    + intros y [Hy | Hy]%elem_of_app; [by apply Hz |].
      apply list_elem_of_singleton in Hy as ->. apply Hb, elem_of_cons. by left.
    + apply IH; [done |]. intros y Hy. apply Hb, elem_of_cons. by right.
Qed.

Lemma map_timestamp_alter v n (l : list EncryptedResponse) :
  map timestamp (alter (verified_with v) n l) = map timestamp l.
Proof.
  revert n. induction l as [|r l IH]; intros [|n]; simpl; try done.
  f_equal. apply IH.
Qed.

Lemma elem_of_map_timestamp (l : list EncryptedResponse) y :
  y ∈ map timestamp l -> exists r, r ∈ l /\ timestamp r = y.
Proof.
  induction l as [|x l IH]; simpl.
  - by intros ?%elem_of_nil.
  - intros [-> | Hy]%elem_of_cons.
    + exists x. split; [apply elem_of_cons; by left | done].
    + destruct (IH Hy) as (r & Hr & <-). exists r. split; [| done].
      apply elem_of_cons. by right.
Qed.

Lemma step_clock_ok s tx b :
  clock_ok s b -> b <= fst tx -> clock_ok (step s tx) (fst tx).
Proof.
  intros Hok Hb.
  assert (forall id dep r, r ∈ responses_at s id dep -> timestamp r <= fst tx) as Hle.
  { intros id dep r Hr. destruct (Hok id dep) as [_ H']. specialize (H' r Hr). lia. }
  step_cases s tx; try (intros id' dep'; split; [apply Hok | apply Hle]).
  - intros id' dep'. rewrite responses_at_submitted.
    case_decide as E; [| split; [apply Hok | apply Hle]]. destruct E as [<- <-].
    split.
    + rewrite map_app. apply ascending_snoc; [apply Hok |].
      intros y (r & Hr & <-)%elem_of_map_timestamp. by apply (Hle id dep).
    + intros r [Hr | Hr]%elem_of_app; [by apply (Hle id dep) |].
      apply list_elem_of_singleton in Hr as ->. simpl. lia.
  - intros id' dep'. rewrite responses_at_verified.
    case_decide as E; [| split; [apply Hok | apply Hle]]. destruct E as [<- <-].
    split.
    + rewrite map_timestamp_alter. apply Hok.
    + intros r0 [Hr | (y & Hy & ->)]%elem_of_alter; [by apply (Hle id dep) |].
      apply (Hle id dep y). apply list_elem_of_lookup. eauto.
Qed.

Lemma run_clock_ok s t b id dep :
  clock_ok s b -> clock_from b t ->
  ascending (map timestamp (responses_at (run s t) id dep)).
Proof.
  revert s b. induction t as [|tx t IH]; intros s b Hok Hc.
  - apply Hok.
  - destruct Hc as [Hb Hc]. rewrite run_cons.
    apply (IH _ (fst tx)); [by apply (step_clock_ok s tx b) | done].
Qed.

(** X16.  When [block.timestamp] never goes back from one transaction to the
    next, the timestamps of every sequence are in ascending order: a later
    index never holds an earlier submission. *)
Theorem timestamps_ascend t id dep :
  clock_from 0 t ->
  ascending (map timestamp (responses_at (run init t) id dep)).
Proof.
  intros Hc. apply (run_clock_ok init t 0); [| done].
  intros id' dep'. rewrite responses_at_init.
  split; [done |]. by intros r ?%elem_of_nil.
Qed.

End Clock.

(** ** Verification and the clear value *)

Section ClearValue.

Context {fhe : FHE.Lib}.

Implicit Types (s : State) (id dep q i now : uint256) (t : list Tx) (tx : Tx).
Implicit Types (r : EncryptedResponse) (n : nat).

(** X17.  [verifyResponse] reads the sequence of its survey and department and
    nothing else: in two states that agree on it the call ends in both or
    aborts with the same error in both.  Neither the window nor the
    [isActive] flag of the survey matters. *)
Theorem verify_reads_only_its_sequence s1 s2 id dep q i cv p :
  responses_at s1 id dep = responses_at s2 id dep ->
  same_outcome (verifyResponse id dep q i cv p s1) (verifyResponse id dep q i cv p s2).
Proof.
  intros H. rewrite !verifyResponse_eq, H.
  repeat case_match; simpl; done.
Qed.








End ClearValue.

(** * The further properties on concrete inputs *)

(** X1 on the scenario: survey 1 exists, survey 2 does not. *)
Lemma createSurvey_outcome_witness :
  createSurvey 1 "S9" 300 400 (run (fhe := toy_fhe) init scenario) =
    Abort DuplicateSurvey (run (fhe := toy_fhe) init scenario) /\
  createSurvey 2 "S2" 300 300 (run (fhe := toy_fhe) init scenario) =
    Abort InvalidTimeRange (run (fhe := toy_fhe) init scenario) /\
  exists s',
    createSurvey 2 "S2" 300 400 (run (fhe := toy_fhe) init scenario) = Done tt s' /\
    getSurveyMetadata 2 s' = inr ("S2", 300, 400, true).
Proof.
  split; [| split].
  - apply (createSurvey_outcome (run (fhe := toy_fhe) init scenario) 1 "S9" 300 400).
    vm_compute. discriminate.
  - apply (createSurvey_outcome (run (fhe := toy_fhe) init scenario) 2 "S2" 300 300).
    + vm_compute. reflexivity.
    + vm_compute. discriminate.
  - destruct (createSurvey_outcome (run (fhe := toy_fhe) init scenario) 2 "S2" 300 400)
      as (_ & _ & H).
    destruct H as (s' & Hdone & Hmeta & _).
    + vm_compute. reflexivity.
    + vm_compute. reflexivity.
    + exists s'. split; [exact Hdone | exact Hmeta].
Defined.

(** X2 on the scenario, after the window of survey 1. *)
Lemma closeSurvey_outcome_witness :
  closeSurvey 250 1 (run (fhe := toy_fhe) init scenario) =
    Done tt (closed 1 (run (fhe := toy_fhe) init scenario)) /\
  getSurveyMetadata 1 (closed 1 (run (fhe := toy_fhe) init scenario)) =
    inr ("S1", 100, 200, false) /\
  closeSurvey 260 1 (closed 1 (run (fhe := toy_fhe) init scenario)) =
    Abort SurveyAlreadyClosed (closed 1 (run (fhe := toy_fhe) init scenario)).
Proof.
  assert (H : closeSurvey 250 1 (run (fhe := toy_fhe) init scenario) =
              Done tt (closed 1 (run (fhe := toy_fhe) init scenario)))
    by (vm_compute; reflexivity).
  destruct (closeSurvey_outcome (fhe := toy_fhe) _ _ _ _ H)
    as (_ & _ & Hmeta & _ & _ & _ & _ & Hagain & _).
  split; [exact H |]. split; [exact Hmeta | exact (Hagain 260)].
Defined.

(** X4 on the scenario: survey 1 through a close. *)
Lemma named_survey_is_immutable_witness :
  surveyName (survey_at (run (fhe := toy_fhe) init scenario) 1) <> "" /\
  surveyName (survey_at (run (fhe := toy_fhe) (run (fhe := toy_fhe) init scenario)
                           [(250, CloseSurvey 1)]) 1) =
    surveyName (survey_at (run (fhe := toy_fhe) init scenario) 1) /\
  createSurvey 1 "" 300 400
    (run (fhe := toy_fhe) (run (fhe := toy_fhe) init scenario) [(250, CloseSurvey 1)]) =
    Abort DuplicateSurvey
      (run (fhe := toy_fhe) (run (fhe := toy_fhe) init scenario) [(250, CloseSurvey 1)]).
Proof.
  assert (H : surveyName (survey_at (run (fhe := toy_fhe) init scenario) 1) <> "")
    by (vm_compute; discriminate).
  destruct (named_survey_is_immutable (fhe := toy_fhe) _ [(250, CloseSurvey 1)] 1 H)
    as (Hn & _ & _ & Hc).
  split; [exact H |]. split; [exact Hn | exact (Hc "" 300 400)].
Defined.

(** X5 on the scenario: survey 1, closed, then
    sent a submission and a verification. *)
Lemma named_survey_close_is_final_witness :
  surveyName (survey_at (run (fhe := toy_fhe) init scenario) 1) <> "" /\
  closeSurvey 250 1 (run (fhe := toy_fhe) init scenario) =
    Done tt (closed 1 (run (fhe := toy_fhe) init scenario)) /\
  isActive (survey_at
              (run (fhe := toy_fhe) (closed 1 (run (fhe := toy_fhe) init scenario))
                 [(260, SubmitEncryptedResponse 1 1 7 43 [x01]);
                  (270, VerifyResponse 1 1 7 0 (abi_encode_uint256 8) [x01])]) 1) = false /\
  count_at (run (fhe := toy_fhe) (closed 1 (run (fhe := toy_fhe) init scenario))
              [(260, SubmitEncryptedResponse 1 1 7 43 [x01]);
               (270, VerifyResponse 1 1 7 0 (abi_encode_uint256 8) [x01])]) 1 =
    count_at (closed 1 (run (fhe := toy_fhe) init scenario)) 1.
Proof.
  assert (H1 : surveyName (survey_at (run (fhe := toy_fhe) init scenario) 1) <> "")
    by (vm_compute; discriminate).
  assert (H2 : closeSurvey 250 1 (run (fhe := toy_fhe) init scenario) =
               Done tt (closed 1 (run (fhe := toy_fhe) init scenario)))
    by (vm_compute; reflexivity).
  destruct (named_survey_close_is_final (fhe := toy_fhe) _ _ _ _
              [(260, SubmitEncryptedResponse 1 1 7 43 [x01]);
               (270, VerifyResponse 1 1 7 0 (abi_encode_uint256 8) [x01])] H1 H2)
    as (Ha & _ & _ & _ & Hc).
  split; [exact H1 |]. split; [exact H2 |]. split; [exact Ha | exact Hc].
Defined.

(** X6 on the scenario: response 0 through the
    close and its verification. *)
Lemma stored_response_is_stable_witness :
  getEncryptedResponse 1 1 7 0 (run (fhe := toy_fhe) init scenario) = inr 42 /\
  getEncryptedResponse 1 1 9 0
    (run (fhe := toy_fhe) (run (fhe := toy_fhe) init scenario)
       [(250, CloseSurvey 1); (260, VerifyResponse 1 1 7 0 (abi_encode_uint256 8) [x01])]) =
    inr 42.
Proof.
  assert (H : getEncryptedResponse 1 1 7 0 (run (fhe := toy_fhe) init scenario) = inr 42)
    by (vm_compute; reflexivity).
  split; [exact H |].
  exact (proj1 (stored_response_is_stable (fhe := toy_fhe) _
                  [(250, CloseSurvey 1);
                   (260, VerifyResponse 1 1 7 0 (abi_encode_uint256 8) [x01])]
                  1 1 7 9 0) 42 H).
Defined.

(** X7 on the scenario: a second submission to department 1. *)
Lemma submit_then_read_witness :
  submitEncryptedResponse (fhe := toy_fhe) 160 1 1 9 43 [x01]
    (run (fhe := toy_fhe) init scenario) =
    Done tt (submitted 160 1 1 9 43 (run (fhe := toy_fhe) init scenario)) /\
  exists h,
    FHE.fromExternal (Lib := toy_fhe) 43 [x01] = Some h /\
    getResponseDetails 1 1 0
      (N.of_nat (length (responses_at (run (fhe := toy_fhe) init scenario) 1 1)))
      (submitted 160 1 1 9 43 (run (fhe := toy_fhe) init scenario)) =
      inr (1, 9, 160, false, 0).
Proof.
  assert (H : submitEncryptedResponse (fhe := toy_fhe) 160 1 1 9 43 [x01]
                (run (fhe := toy_fhe) init scenario) =
              Done tt (submitted 160 1 1 9 43 (run (fhe := toy_fhe) init scenario)))
    by (vm_compute; reflexivity).
  split; [exact H |].
  destruct (submit_then_read (fhe := toy_fhe) _ _ _ _ _ _ _ _ H)
    as (h & He & _ & _ & _ & Hread).
  exists h. split; [exact He |].
  exact (proj1 (proj2 (Hread 0))).
Defined.

(** X8 on the verified response of the scenario. *)
Lemma stored_responses_are_well_formed_witness :
  verified_with 8 (fresh_response 42 1 7 150) ∈
    responses_at (run (fhe := toy_fhe) init scenario_verified) 1 1 /\
  well_formed 1 (verified_with 8 (fresh_response 42 1 7 150)).
Proof.
  assert (H : verified_with 8 (fresh_response 42 1 7 150) ∈
              responses_at (run (fhe := toy_fhe) init scenario_verified) 1 1).
  { apply list_elem_of_lookup. exists 0%nat. vm_compute. reflexivity. }
  split; [exact H |].
  exact (stored_responses_are_well_formed (fhe := toy_fhe) _ _ _ _ H).
Defined.

(** X9 on the response of the scenario. *)
Lemma stored_handles_are_publicly_decryptable_witness :
  fresh_response 42 1 7 150 ∈ responses_at (run (fhe := toy_fhe) init scenario) 1 1 /\
  AllowThis 42 ∈ acl (run (fhe := toy_fhe) init scenario) /\
  MakePubliclyDecryptable 42 ∈ acl (run (fhe := toy_fhe) init scenario).
Proof.
  assert (H : fresh_response 42 1 7 150 ∈
              responses_at (run (fhe := toy_fhe) init scenario) 1 1).
  { apply list_elem_of_lookup. exists 0%nat. vm_compute. reflexivity. }
  split; [exact H |].
  exact (stored_handles_are_publicly_decryptable (fhe := toy_fhe) _ _ _ _ H).
Defined.

(** X10 on the scenario: a creation of survey 2, and a
    submission to department 2, seen from survey 1 and department 1. *)
Lemma other_keys_are_untouched_witness :
  count_at (step (fhe := toy_fhe) (run (fhe := toy_fhe) init scenario)
              (60, CreateSurvey 2 "S2" 100 200)) 1 =
    count_at (run (fhe := toy_fhe) init scenario) 1 /\
  responses_at (step (fhe := toy_fhe) (run (fhe := toy_fhe) init scenario)
                  (160, SubmitEncryptedResponse 1 2 9 43 [x01])) 1 1 =
    responses_at (run (fhe := toy_fhe) init scenario) 1 1.
Proof.
  split.
  - apply (other_keys_are_untouched (fhe := toy_fhe) (run (fhe := toy_fhe) init scenario)
             (60, CreateSurvey 2 "S2" 100 200) 1 1).
    simpl. discriminate.
  - apply (other_keys_are_untouched (fhe := toy_fhe) (run (fhe := toy_fhe) init scenario)
             (160, SubmitEncryptedResponse 1 2 9 43 [x01]) 1 1).
    simpl. discriminate.
Defined.

(** X15 on the scenario. *)
Lemma named_survey_responses_in_window_witness :
  createSurvey 1 "S1" 100 200 init = Done tt (created 1 "S1" 100 200 init) /\
  fresh_response 42 1 7 150 ∈
    responses_at (run (fhe := toy_fhe) (created 1 "S1" 100 200 init)
                    [(150, SubmitEncryptedResponse 1 1 7 42 [x01])]) 1 1 /\
  100 <= timestamp (fresh_response 42 1 7 150) <= 200.
Proof.
  assert (H1 : createSurvey 1 "S1" 100 200 init = Done tt (created 1 "S1" 100 200 init))
    by (vm_compute; reflexivity).
  assert (H2 : fresh_response 42 1 7 150 ∈
               responses_at (run (fhe := toy_fhe) (created 1 "S1" 100 200 init)
                               [(150, SubmitEncryptedResponse 1 1 7 42 [x01])]) 1 1).
  { apply list_elem_of_lookup. exists 0%nat. vm_compute. reflexivity. }
  split; [exact H1 |]. split; [exact H2 |].
  apply (named_survey_responses_in_window (fhe := toy_fhe) init 1 "S1" 100 200
           (created 1 "S1" 100 200 init)
           [(150, SubmitEncryptedResponse 1 1 7 42 [x01])] 1 (fresh_response 42 1 7 150)).
  - intros dep'. reflexivity.
  - discriminate.
  - exact H1.
  - exact H2.
Defined.

(** X16 on the scenario with its three submissions. *)
Lemma timestamps_ascend_witness :
  clock_from 0 scenario_two /\
  ascending (map timestamp (responses_at (run (fhe := toy_fhe) init scenario_two) 1 1)).
Proof.
  assert (H : clock_from 0 scenario_two).
  { simpl. repeat split; vm_compute; discriminate. }
  split; [exact H |].
  exact (timestamps_ascend (fhe := toy_fhe) scenario_two 1 1 H).
Defined.

(** X17 on the scenario: before and after the close. *)
Lemma verify_reads_only_its_sequence_witness :
  responses_at (run (fhe := toy_fhe) init scenario) 1 1 =
    responses_at (closed 1 (run (fhe := toy_fhe) init scenario)) 1 1 /\
  same_outcome
    (verifyResponse (fhe := toy_fhe) 1 1 7 0 (abi_encode_uint256 8) [x01]
       (run (fhe := toy_fhe) init scenario))
    (verifyResponse (fhe := toy_fhe) 1 1 7 0 (abi_encode_uint256 8) [x01]
       (closed 1 (run (fhe := toy_fhe) init scenario))).
Proof.
  assert (H : responses_at (run (fhe := toy_fhe) init scenario) 1 1 =
              responses_at (closed 1 (run (fhe := toy_fhe) init scenario)) 1 1)
    by reflexivity.
  split; [exact H |].
  exact (verify_reads_only_its_sequence (fhe := toy_fhe) _ _ 1 1 7 0
           (abi_encode_uint256 8) [x01] H).
Defined.


(** * The dashboard *)

Section Dashboard.

Import Frontend.

Implicit Types (fetched : list (string * option BusinessData.t)).

Lemma load_snoc fetched f : load (fetched ++ [f]) = load_one (load fetched) f.
Proof. unfold load. by rewrite fold_left_app. Qed.

Lemma loaded_snoc fetched f :
  loaded (fetched ++ [f]) =
    (loaded fetched ++ match snd f with Some d => [(fst f, d)] | None => [] end)%list.
Proof.
  unfold loaded. rewrite omap_app. simpl. by destruct (snd f).
Qed.

Lemma length_loaded fetched : (length (loaded fetched) <= length fetched)%nat.
Proof.
  induction fetched as [|f fetched IH] using rev_ind; [done |].
  rewrite loaded_snoc, !length_app. destruct (snd f); simpl; lia.
Qed.

Lemma category_of_in v : category_of v ∈ categories.
Proof.
  unfold category_of. apply list_elem_of_In, nth_In.
  assert (v mod N.of_nat (length categories) < N.of_nat (length categories))
    by (apply N.mod_upper_bound; simpl; lia).
  lia.
Qed.

Lemma in_category_snoc c (l : list SurveyData.t) x :
  in_category c (l ++ [x]) =
    in_category c l + (if decide (SurveyData.category x = c) then 1 else 0).
Proof.
  unfold in_category. rewrite filter_app, length_app, filter_cons, filter_nil.
  case_decide; simpl length; lia.
Qed.

(** What the loop of [loadData] keeps: the list is the fetched businesses in
    order, every category on it is one of [categories], and the entry of a
    category in [categoryCount] is the number of its surveys on the list,
    absent when there is none. *)
Lemma load_invariant fetched :
  fst (load fetched) = map (fun p => survey_data (fst p) (snd p)) (loaded fetched) /\
  forall c,
    default 0 (snd (load fetched) !! c) = in_category c (fst (load fetched)) /\
    (is_Some (snd (load fetched) !! c) -> c ∈ categories).
Proof.
  induction fetched as [|f fetched IH] using rev_ind.
  - split; [done |]. intros c. split; [done |]. simpl. rewrite lookup_empty.
    by intros [? ?].
  - destruct IH as [IHl IHc]. rewrite load_snoc, loaded_snoc. unfold load_one.
    destruct (snd f) as [d|]; simpl.
    + split; [by rewrite map_app, IHl |].
      intros c. rewrite in_category_snoc. simpl.
      destruct (IHc c) as [Hc Hdom].
      destruct (decide (category_of (BusinessData.publicValue1 d) = c)) as [<-|Hne].
      * rewrite lookup_insert_eq. simpl. split; [| intros _; apply category_of_in].
        rewrite <- Hc. unfold or_else.
        destruct (_ =? 0) eqn:E; [apply N.eqb_eq in E; rewrite E |]; lia.
      * rewrite lookup_insert_ne by done. split; [rewrite Hc; lia | done].
    + rewrite app_nil_r. split; [done | apply IHc].
Qed.

(** X19.  [loadData] lists the businesses whose data it could fetch, in the
    order of the identifiers and each under its identifier, and skips the
    others; so [totalSurveys] is at most the number of identifiers, and
    [verifiedCount] at most [totalSurveys]. *)
Theorem loadData_lists_the_fetched fetched :
  surveysList fetched = map (fun p => survey_data (fst p) (snd p)) (loaded fetched) /\
  map SurveyData.id (surveysList fetched) = map fst (loaded fetched) /\
  totalSurveys fetched <= N.of_nat (length fetched) /\
  verifiedCount fetched <= totalSurveys fetched.
Proof.
  destruct (load_invariant fetched) as [Hl _]. unfold totalSurveys, verifiedCount, surveysList.
  split_and!.
  - done.
  - rewrite Hl, map_map. done.
  - rewrite Hl, length_map.
    pose proof (length_loaded fetched). lia.
  - pose proof (length_filter (fun x => SurveyData.isVerified x = true) (fst (load fetched))).
    lia.
Qed.

Lemma breakdown_total_ext (m : gmap string N) (g : string -> N) cs :
  (forall c, default 0 (m !! c) = g c) ->
  breakdown_total m cs = foldr (fun c acc => g c + acc) 0 cs.
Proof.
  intros H. induction cs as [|c cs IH]; simpl; [done |]. by rewrite H, IH.
Qed.

Lemma one_category c0 :
  c0 ∈ categories ->
  foldr (fun c acc => (if decide (c0 = c) then 1 else 0) + acc) 0 categories = 1.
Proof.
  intros H.
  repeat (apply elem_of_cons in H as [-> | H]; [by vm_compute |]).
  by apply elem_of_nil in H.
Qed.

Lemma in_category_total (l : list SurveyData.t) :
  Forall (fun x => SurveyData.category x ∈ categories) l ->
  foldr (fun c acc => in_category c l + acc) 0 categories = N.of_nat (length l).
Proof.
  induction l as [|x l IH] using rev_ind; intros Hall.
  - by vm_compute.
  - apply Forall_app in Hall as [Hl Hx]. rewrite Forall_singleton in Hx.
    rewrite length_app. simpl length.
    pose proof (one_category _ Hx) as H1. specialize (IH Hl).
    assert (forall cs,
      foldr (fun c acc => in_category c (l ++ [x]) + acc) 0 cs =
      foldr (fun c acc => in_category c l + acc) 0 cs +
      foldr (fun c acc => (if decide (SurveyData.category x = c) then 1 else 0) + acc) 0 cs)
      as Hsum.
    { induction cs as [|c cs IHcs]; simpl; [done |].
      rewrite IHcs, in_category_snoc. lia. }
    rewrite Hsum, IH, H1. lia.
Qed.

(** X20.  The entry of a category in [categoryBreakdown] is the number of listed
    surveys in that category; the only keys are the six of [categories];
    and the six entries add up to [totalSurveys]. *)
Theorem categoryBreakdown_adds_up fetched :
  (forall c,
     default 0 (categoryBreakdown fetched !! c) = in_category c (surveysList fetched) /\
     (is_Some (categoryBreakdown fetched !! c) -> c ∈ categories)) /\
  breakdown_total (categoryBreakdown fetched) categories = totalSurveys fetched.
Proof.
  destruct (load_invariant fetched) as [Hl Hc]. split; [exact Hc |].
  unfold categoryBreakdown, totalSurveys, surveysList.
  rewrite (breakdown_total_ext _ (fun c => in_category c (fst (load fetched))))
    by (intros c; apply Hc).
  apply in_category_total. rewrite Hl.
  apply Forall_forall. intros x Hx%list_elem_of_In%in_map_iff.
  destruct Hx as (p & <- & _). apply category_of_in.
Qed.

(** X21.  The category of a survey comes back from its index: for each of the
    six categories, the index that [createSurvey] computes with
    [categories.indexOf] is mapped by [loadData] to that category; and
    whatever number [loadData] reads, the category it shows is one of the
    six. *)
Theorem category_index_round_trip :
  (forall c, c ∈ categories -> category_of (Z.to_N (indexOf c categories)) = c) /\
  (forall v, category_of v ∈ categories).
Proof.
  split; [| apply category_of_in].
  intros c H.
  repeat (apply elem_of_cons in H as [-> | H]; [by vm_compute |]).
  by apply elem_of_nil in H.
Qed.

End Dashboard.

(** X21 on the category "culture". *)
Lemma category_index_round_trip_witness :
  "culture" ∈ Frontend.categories /\
  Frontend.category_of (Z.to_N (Frontend.indexOf "culture" Frontend.categories)) = "culture".
Proof.
  assert (H : "culture" ∈ Frontend.categories).
  { apply list_elem_of_In. simpl. tauto. }
  split; [exact H |].
  exact (proj1 category_index_round_trip "culture" H).
Defined.

(** X20 on the sample: one survey in "culture", one
    in "management". *)
Lemma categoryBreakdown_adds_up_witness :
  is_Some (Frontend.categoryBreakdown fetched_sample !! "culture") /\
  "culture" ∈ Frontend.categories /\
  Frontend.breakdown_total (Frontend.categoryBreakdown fetched_sample) Frontend.categories = 2.
Proof.
  assert (H : is_Some (Frontend.categoryBreakdown fetched_sample !! "culture")).
  { exists 1. vm_compute. reflexivity. }
  destruct (categoryBreakdown_adds_up fetched_sample) as [Hc Htotal].
  split; [exact H |]. split; [exact (proj2 (Hc "culture") H) |].
  rewrite Htotal. vm_compute. reflexivity.
Defined.
